(** * PointElevationUpdater: assigning DEM elevations to point datasets

    A shallow embedding of [src/gis/PointElevationUpdater.py] and the
    properties its specification states about it.

    The Python class is glue around geopandas, rasterio, shapely, numpy and
    the [os] module.  The glue is embedded statement by statement; the
    library calls it makes are embedded by their documented contract, over
    an explicit world made of the live [GeoDataFrame] objects (a store, so
    that aliasing and copies are visible), the directories and vector files
    on disk, and the trace of library calls and log lines. *)

From Stdlib Require Import ZArith String Ascii List Floats.SpecFloat Lia.
From stdpp Require Import base option list gmap strings pretty.

Open Scope string_scope.

(** ** Values *)

(** Coordinates and raster samples are IEEE-754 values.  (The samples of an
    integer raster are finite values of this type as well.) *)
Definition float := spec_float.

(** [numpy.isfinite]: neither an infinity nor a NaN. *)
Definition np_isfinite (z : float) : bool :=
  match z with
  | S754_zero _ | S754_finite _ _ _ => true
  | S754_infinity _ | S754_nan => false
  end.

(** [float(z)] on a numpy floating scalar: the same IEEE value as a Python
    float. *)
Definition py_float (z : float) : float := z.

(** What Python raises along the paths of the class. *)
Inductive exn :=
| AttributeError (attr : string)
| ValueError (msg : string)
| FileNotFoundError (path : string)
| FileExistsError (path : string)
| DriverError (path : string)
| WriteError (path : string)
| InvalidReference.

Inductive result (A : Type) :=
| Ok (a : A)
| Err (e : exn).
Arguments Ok {A} a.
Arguments Err {A} e.

#[global] Instance result_ret : MRet result := λ A a, Ok a.
#[global] Instance result_bind : MBind result := λ A B f r,
  match r with Ok a => f a | Err e => Err e end.

(** ** Geometries and datasets *)

(** A shapely geometry as the class sees it: a 2D point, a 3D point, or
    anything that has no [.x] and [.y] (a missing geometry, an empty one, a
    line, a polygon). *)
Inductive geometry :=
| Point2D (x y : float)
| Point3D (x y z : float)
| NotAPoint (kind : string).

(** [shapely.geometry.Point(x, y, z)]. *)
Definition Point (x y z : float) : geometry := Point3D x y z.

(** [geom.x], [geom.y]. *)
Definition geom_x (g : geometry) : result float :=
  match g with
  | Point2D x _ | Point3D x _ _ => Ok x
  | NotAPoint _ => Err (AttributeError "x")
  end.

Definition geom_y (g : geometry) : result float :=
  match g with
  | Point2D _ y | Point3D _ y _ => Ok y
  | NotAPoint _ => Err (AttributeError "y")
  end.

Definition has_z (g : geometry) : bool :=
  match g with Point3D _ _ _ => true | _ => false end.

Definition is_point (g : geometry) : bool :=
  match g with NotAPoint _ => false | _ => true end.

(** A coordinate reference system; an undefined one is [None]. *)
Record CRS := EPSG { epsg_code : Z }.

#[global] Instance CRS_eq_dec : EqDecision CRS.
Proof. solve_decision. Defined.

(** Attribute values of a record. *)
Inductive value :=
| VNull
| VInt (n : Z)
| VFloat (f : float)
| VStr (s : string).

(** One record of a dataset: its attribute fields and its geometry. *)
Record row := Row {
  fields : list (string * value);
  geom : geometry }.

(** A [GeoDataFrame]: an ordered collection of records and a CRS. *)
Record GeoDataFrame := GDF {
  crs : option CRS;
  rows : list row }.

(** [gdf.geometry], the geometry column in record order. *)
Definition geometry_column (g : GeoDataFrame) : list geometry :=
  map geom (rows g).

(** The attribute columns in record order. *)
Definition attribute_columns (g : GeoDataFrame) : list (list (string * value)) :=
  map fields (rows g).

(** A point dataset: every record carries a 2D or 3D point. *)
Definition is_point_dataset (g : GeoDataFrame) : bool :=
  forallb is_point (geometry_column g).

(** ** The DEM *)

(** An opened rasterio dataset: its CRS and what each band holds at a
    coordinate (the nodata value or a non-finite value off the raster).  A
    raster has at least one band. *)
Record DatasetReader := {
  dem_crs : option CRS;
  dem_band1 : float → float → float;
  dem_more_bands : list (float → float → float) }.

(** [dem.sample(coords)]: per coordinate, the values of all bands. *)
Definition dem_sample (d : DatasetReader) (coords : list (float * float))
  : list (list float) :=
  map (λ xy, dem_band1 d xy.1 xy.2 :: map (λ b, b xy.1 xy.2) (dem_more_bands d))
      coords.

(** [np.array(elevations).flatten()]. *)
Definition np_flatten (elevations : list (list float)) : list float :=
  concat elevations.

(** [tqdm(iterable, ...)] yields the elements of the iterable; the progress
    bar is cosmetic. *)
Definition tqdm {A} (it : list A) : list A := it.

Record PointElevationUpdater := {
  dem_path : string;
  dem : DatasetReader }.

(** ** Paths ([posixpath]) *)

Module os_path.

Definition sep : ascii := "/"%char.
Definition extsep : ascii := "."%char.

Definition is_sep (c : ascii) : bool := Ascii.eqb c sep.
Definition is_extsep (c : ascii) : bool := Ascii.eqb c extsep.

(** Cut a reversed path at its last separator: the reversed head, which
    keeps the separator, and the tail after it.  This is the slice at
    [p.rfind('/') + 1]. *)
Fixpoint rsplit_sep (rev_p tail : list ascii) : list ascii * list ascii :=
  match rev_p with
  | [] => ([], tail)
  | c :: r => if is_sep c then (rev_p, tail) else rsplit_sep r (c :: tail)
  end.

Fixpoint drop_seps (rev_head : list ascii) : list ascii :=
  match rev_head with
  | [] => []
  | c :: r => if is_sep c then drop_seps r else rev_head
  end.

(** [os.path.dirname]: the head up to the last separator, with trailing
    separators stripped unless the head is made of separators only. *)
Definition dirname (p : string) : string :=
  let rev_head := (rsplit_sep (rev (list_ascii_of_string p)) []).1 in
  match drop_seps rev_head with
  | [] => string_of_list_ascii (rev rev_head)
  | stripped => string_of_list_ascii (rev stripped)
  end.

(** [os.path.basename]: what follows the last separator. *)
Definition basename (p : string) : string :=
  string_of_list_ascii (rsplit_sep (rev (list_ascii_of_string p)) []).2.

(** Cut a reversed file name at its last dot: the reversed root and the
    extension, which keeps the dot. *)
Fixpoint rsplit_dot (rev_name ext : list ascii)
  : option (list ascii * list ascii) :=
  match rev_name with
  | [] => None
  | c :: r => if is_extsep c then Some (r, c :: ext) else rsplit_dot r (c :: ext)
  end.

(** [os.path.splitext]: the extension starts at the last dot of the last
    component, leading dots of that component not counting. *)
Definition splitext (p : string) : string * string :=
  let '(rev_head, name) := rsplit_sep (rev (list_ascii_of_string p)) [] in
  match rsplit_dot (rev name) [] with
  | Some (rev_root, ext) =>
      if forallb is_extsep rev_root then (p, EmptyString)
      else (string_of_list_ascii (rev rev_head ++ rev rev_root),
            string_of_list_ascii ext)
  | None => (p, EmptyString)
  end.

Definition startswith_sep (p : string) : bool :=
  match p with String c _ => is_sep c | EmptyString => false end.

Definition endswith_sep (p : string) : bool :=
  match rev (list_ascii_of_string p) with c :: _ => is_sep c | [] => false end.

(** [os.path.join(a, b)]. *)
Definition join (a b : string) : string :=
  if startswith_sep b then b
  else if (String.eqb a EmptyString || endswith_sep a)%bool then a +:+ b
  else a +:+ "/" +:+ b.

End os_path.

(** ** The world the class runs in *)

(** References to live [GeoDataFrame] objects. *)
Definition loc := positive.

(** A vector file on disk: the driver and text encoding it was written
    with, and the dataset it holds. *)
Record vector_file := VectorFile {
  vf_driver : string;
  vf_encoding : string;
  vf_data : GeoDataFrame }.

(** Calls into the libraries and log lines, oldest first. *)
Inductive event :=
| LogInfo (msg : string)
| CallToCrs (gdf : loc) (target : option CRS)
| CallSample (n : nat)
| CallMakedirs (name : string)
| CallToFile (gdf : loc) (path driver : string)
| CallReadFile (path : string).

Record world := World {
  heap : gmap loc GeoDataFrame;
  dirs : gset string;
  files : gmap string vector_file;
  trace : list event }.

Definition with_heap (h : gmap loc GeoDataFrame) (w : world) : world :=
  World h (dirs w) (files w) (trace w).

Definition with_dirs (d : gset string) (w : world) : world :=
  World (heap w) d (files w) (trace w).

Definition with_files (f : gmap string vector_file) (w : world) : world :=
  World (heap w) (dirs w) f (trace w).

Definition logged (ev : event) (w : world) : world :=
  World (heap w) (dirs w) (files w) (trace w ++ [ev]).

(** Computations over the world that may raise.  What a computation did
    before it raised stays done: the world is returned in both cases. *)
Definition M (A : Type) : Type := world → result A * world.

#[global] Instance M_ret : MRet M := λ A a w, (Ok a, w).
#[global] Instance M_bind : MBind M := λ A B f m w,
  match m w with
  | (Ok a, w') => f a w'
  | (Err e, w') => (Err e, w')
  end.

Definition raise {A} (e : exn) : M A := λ w, (Err e, w).

Definition lift {A} (r : result A) : M A := λ w, (r, w).

Definition emit (ev : event) : M unit := λ w,
  (Ok tt, logged ev w).

(** [logging.info(msg)]. *)
Definition logging_info (msg : string) : M unit := emit (LogInfo msg).

(** Reading through a reference. *)
Definition deref (l : loc) : M GeoDataFrame := λ w,
  match heap w !! l with
  | Some g => (Ok g, w)
  | None => (Err InvalidReference, w)
  end.

(** A new object. *)
Definition alloc (g : GeoDataFrame) : M loc := λ w,
  let l := fresh (dom (heap w)) in
  (Ok l, with_heap (<[l := g]> (heap w)) w).

(** Overwriting the object behind a reference. *)
Definition store (l : loc) (g : GeoDataFrame) : M unit := λ w,
  (Ok tt, with_heap (<[l := g]> (heap w)) w).

(** ** The library calls *)

(** What a pyproj transformer does to the coordinates of a point. *)
Record Transformer := {
  transform_xy : float → float → float * float;
  transform_xyz : float → float → float → float * float * float }.

(** [shapely.ops.transform]: the coordinates change, the kind of geometry
    does not. *)
Definition transform_geometry (t : Transformer) (g : geometry) : geometry :=
  match g with
  | Point2D x y => let '(x', y') := transform_xy t x y in Point2D x' y'
  | Point3D x y z => let '(x', y', z') := transform_xyz t x y z in Point3D x' y' z'
  | NotAPoint k => NotAPoint k
  end.

Definition transform_row (t : Transformer) (r : row) : row :=
  Row (fields r) (transform_geometry t (geom r)).

(** [os.makedirs(name, exist_ok=True)].  An empty name is refused with
    [FileNotFoundError], a name that is a regular file with
    [FileExistsError]; an existing directory is accepted.  (Missing parent
    directories are created as well; the model keeps the leaf.) *)
Definition os_makedirs (name : string) : M unit :=
  _ ← emit (CallMakedirs name);
  (λ w,
     if String.eqb name EmptyString then (Err (FileNotFoundError name), w)
     else if bool_decide (is_Some (files w !! name))
     then (Err (FileExistsError name), w)
     else (Ok tt, with_dirs ({[name]} ∪ dirs w) w)) : M unit.

(** [GeoDataFrame.copy()]: a new object with the same content. *)
Definition copy (gdf : loc) : M loc :=
  g ← deref gdf;
  alloc g.

(** [gdf.geometry = new_geoms]: the geometry column of the object is
    replaced in place; the CRS of the frame is kept; the list must have one
    entry per record. *)
Definition set_geometry (gdf : loc) (new_geoms : list geometry) : M unit :=
  g ← deref gdf;
  if bool_decide (length new_geoms = length (rows g)) then
    store gdf (GDF (crs g) (zip_with (λ r ng, Row (fields r) ng) (rows g) new_geoms))
  else raise (ValueError "Length of values does not match length of index").

(** [gpd.read_file(path)]: a new object holding the dataset of the file. *)
Definition read_file (path : string) : M loc :=
  _ ← emit (CallReadFile path);
  (λ w,
     match files w !! path with
     | Some f => alloc (vf_data f) w
     | None => (Err (DriverError path), w)
     end) : M loc.

Section Updater.

(** pyproj's transformer between two CRSs, and the format-level checks of
    the vector writer (an unsupported geometry mix, an unwritable
    target): [Some e] when the writer refuses. *)
Context (TransformerFromCRS : CRS → CRS → Transformer).
Context (write_fault : string → string → GeoDataFrame → option exn).

(** [GeoDataFrame.to_crs(crs)] (not in place): geopandas refuses a frame
    without CRS ("Cannot transform naive geometries.  Please set a crs on
    the object first.") and a missing target ("Must pass either crs or
    epsg."); otherwise a new frame in the target CRS, every geometry
    transformed, the attribute columns as they were. *)
Definition to_crs (gdf : loc) (target : option CRS) : M loc :=
  _ ← emit (CallToCrs gdf target);
  g ← deref gdf;
  match crs g with
  | None => raise (ValueError "Cannot transform naive geometries.  Please set a crs on the object first.")
  | Some src =>
      match target with
      | None => raise (ValueError "Must pass either crs or epsg.")
      | Some dst =>
          alloc (GDF (Some dst)
                     (map (transform_row (TransformerFromCRS src dst)) (rows g)))
      end
  end.

(** [gdf.to_file(path, driver=..., encoding=...)]: the target directory
    must exist (an empty directory part is the working directory); an
    existing target is overwritten. *)
Definition to_file (gdf : loc) (path driver encoding : string) : M unit :=
  _ ← emit (CallToFile gdf path driver);
  g ← deref gdf;
  (λ w,
     let d := os_path.dirname path in
     if negb (String.eqb d EmptyString) && negb (bool_decide (d ∈ dirs w))
     then (Err (DriverError path), w)
     else match write_fault driver path g with
          | Some e => (Err e, w)
          | None =>
              (Ok tt, with_files (<[path := VectorFile driver encoding g]> (files w)) w)
          end) : M unit.

(** *** The methods of [PointElevationUpdater] *)

Context (self : PointElevationUpdater).

(** Reproject points to DEM CRS if needed. *)
Definition _ensure_same_crs (gdf : loc) : M loc :=
  g ← deref gdf;
  if bool_decide (crs g ≠ dem_crs (dem self)) then
    _ ← logging_info "CRS mismatch detected → Reprojecting points to DEM CRS...";
    to_crs gdf (dem_crs (dem self))
  else mret gdf.

Definition coords_of (geoms : list geometry) : result (list (float * float)) :=
  mapM (λ geom, x ← geom_x geom; y ← geom_y geom; mret (x, y)) geoms.

(** Fast elevation sampling with tqdm progress bar. *)
Definition _sample_elevations (gdf : loc) : M (list float) :=
  g ← deref gdf;
  coords ← lift (coords_of (geometry_column g));
  _ ← emit (CallSample (length coords));
  let elevations := tqdm (dem_sample (dem self) coords) in
  mret (np_flatten elevations).

(** The body of the loop of [update_z_values]. *)
Definition rewrite_geometry (geom : geometry) (z : float) : result geometry :=
  if np_isfinite z then
    x ← geom_x geom; y ← geom_y geom; mret (Point x y (py_float z))
  else mret geom.

Definition rewrite_geometries (pairs : list (geometry * float))
  : result (list geometry) :=
  mapM (λ gz, rewrite_geometry gz.1 gz.2) pairs.

(** Update point Z coordinates using DEM. *)
Definition update_z_values (gdf : loc) : M loc :=
  gdf ← _ensure_same_crs gdf;
  elevations ← _sample_elevations gdf;
  g ← deref gdf;
  new_geoms ← lift (rewrite_geometries (zip (geometry_column g) elevations));
  updated ← copy gdf;
  _ ← set_geometry updated new_geoms;
  mret updated.

(** Export as 3D Shapefile. *)
Definition export_shp (gdf : loc) (output_path : string) : M unit :=
  _ ← os_makedirs (os_path.dirname output_path);
  _ ← to_file gdf output_path "ESRI Shapefile" "utf-8";
  logging_info ("3D Shapefile exported → " +:+ output_path).

(** Export GeoJSON. *)
Definition export_geojson (gdf : loc) (output_path : string) : M unit :=
  _ ← os_makedirs (os_path.dirname output_path);
  gdf ← to_crs gdf (Some (EPSG 4326));
  _ ← to_file gdf output_path "GeoJSON" "utf-8";
  logging_info ("GeoJSON exported → " +:+ output_path).

(** Process a single shapefile. *)
Definition process_shapefile (shp_path out_dir : string) : M unit :=
  _ ← logging_info ("Processing: " +:+ shp_path);
  gdf ← read_file shp_path;
  updated ← update_z_values gdf;
  let base := (os_path.splitext (os_path.basename shp_path)).1 in
  let shp_out := os_path.join out_dir (base +:+ "_Z.shp") in
  let json_out := os_path.join out_dir (base +:+ "_Z.geojson") in
  _ ← export_shp updated shp_out;
  export_geojson updated json_out.

End Updater.

(** ** The folder driver *)

(** *** Strings ([str]) *)

(** [c.lower()] on the letters A to Z; every other byte stays.  Names are
    the bytes of their UTF-8 encoding; the test the folder driver makes on a
    lowered name, whether it ends in [.shp], reads four ASCII characters,
    and no character outside ASCII lowers to one of them. *)
Definition ascii_lower (c : ascii) : ascii :=
  let n := nat_of_ascii c in
  if (Nat.leb 65 n && Nat.leb n 90)%bool then ascii_of_nat (n + 32) else c.

(** [s.lower()]. *)
Fixpoint str_lower (s : string) : string :=
  match s with
  | EmptyString => EmptyString
  | String c s' => String (ascii_lower c) (str_lower s')
  end.

Fixpoint starts_with (p l : list ascii) : bool :=
  match p, l with
  | [], _ => true
  | c :: p', d :: l' => (Ascii.eqb c d && starts_with p' l')%bool
  | _ :: _, [] => false
  end.

(** [s.endswith(suffix)]. *)
Definition str_endswith (s suffix : string) : bool :=
  starts_with (rev (list_ascii_of_string suffix)) (rev (list_ascii_of_string s)).

(** [for x in items: body(x)]: the first error ends the loop. *)
Fixpoint for_each {A} (items : list A) (body : A → M unit) : M unit :=
  match items with
  | [] => mret tt
  | x :: rest => _ ← body x; for_each rest body
  end.

Section Batch.

(** [os.listdir]: the names of the entries of a directory in the order the
    platform gives them, or the error it raises (a missing directory, a
    regular file). *)
Context (os_listdir : string → world → result (list string)).
Context (TransformerFromCRS : CRS → CRS → Transformer).
Context (write_fault : string → string → GeoDataFrame → option exn).
Context (self : PointElevationUpdater).

Definition listdir (folder : string) : M (list string) :=
  λ w, (os_listdir folder w, w).

(** Batch process all shapefiles in a folder with tqdm progress bar. *)
Definition process_folder (folder out_dir : string) : M unit :=
  names ← listdir folder;
  let files := List.filter (λ f, str_endswith (str_lower f) ".shp") names in
  _ ← logging_info ("Found " +:+ pretty (length files) +:+ " shapefiles.");
  for_each (tqdm files)
    (λ f, process_shapefile TransformerFromCRS write_fault self
            (os_path.join folder f) out_dir).

End Batch.

(** ** Vocabulary of the statements *)

(** The two output paths of [process_shapefile]. *)
Definition shp_out_of (shp_path out_dir : string) : string :=
  os_path.join out_dir
    ((os_path.splitext (os_path.basename shp_path)).1 +:+ "_Z.shp").

Definition json_out_of (shp_path out_dir : string) : string :=
  os_path.join out_dir
    ((os_path.splitext (os_path.basename shp_path)).1 +:+ "_Z.geojson").

(** Every object that was live is still live and holds what it held. *)
Definition objects_kept (w w' : world) : Prop :=
  ∀ l g, heap w !! l = Some g → heap w' !! l = Some g.

(** A computation that never writes to an object that was live when it
    started. *)
Definition keeps_objects {A} (m : M A) : Prop :=
  ∀ w, objects_kept w (m w).2.

(** A computation that leaves every file other than [path] as it was. *)
Definition writes_only {A} (path : string) (m : M A) : Prop :=
  ∀ w p, p ≠ path → files (m w).2 !! p = files w !! p.

(** A computation that leaves every file whose path satisfies [P] as it
    was. *)
Definition leaves_files {A} (P : string → Prop) (m : M A) : Prop :=
  ∀ w p, P p → files (m w).2 !! p = files w !! p.

(** A computation that does not touch the disk. *)
Definition keeps_disk {A} (m : M A) : Prop :=
  ∀ w, files (m w).2 = files w ∧ dirs (m w).2 = dirs w.

(** A path component: no separator in it. *)
Definition sep_free (l : list ascii) : Prop :=
  Forall (λ c, os_path.is_sep c = false) l.

(** A shapefile in the DEM's CRS at [p]; a GeoJSON file in EPSG:4326 at [p]. *)
Definition is_shp_output (self : PointElevationUpdater) (w : world) (p : string) : Prop :=
  ∃ sf, files w !! p = Some sf ∧
        vf_driver sf = "ESRI Shapefile" ∧
        crs (vf_data sf) = dem_crs (dem self).

Definition is_json_output (w : world) (p : string) : Prop :=
  ∃ jf, files w !! p = Some jf ∧
        vf_driver jf = "GeoJSON" ∧
        crs (vf_data jf) = Some (EPSG 4326).

(** ** Sample data *)

Module Sample.

(** The binary64 value of an integer. *)
Definition f64 (n : Z) : float := binary_normalize 53 1024 n 0 false.

(** A transformer that is told apart from the identity: it swaps the two
    horizontal axes. *)
Definition swap_axes (src dst : CRS) : Transformer :=
  {| transform_xy x y := (y, x);
     transform_xyz x y z := (y, x, z) |}.

(** A writer that accepts every dataset. *)
Definition accept_all (driver path : string) (g : GeoDataFrame) : option exn :=
  None.

Definition utm33 : CRS := EPSG 32633.
Definition wgs84 : CRS := EPSG 4326.

(** A one-band DEM of constant elevation 100 over [0,10] x [0,10], NaN
    elsewhere. *)
Definition in_extent (x y : float) : bool :=
  match SFcompare (f64 0) x, SFcompare x (f64 10),
        SFcompare (f64 0) y, SFcompare y (f64 10) with
  | Some (Lt | Eq), Some (Lt | Eq), Some (Lt | Eq), Some (Lt | Eq) => true
  | _, _, _, _ => false
  end.

Definition flat100 (x y : float) : float :=
  if in_extent x y then f64 100 else S754_nan.

Definition dem_utm : DatasetReader :=
  {| dem_crs := Some utm33; dem_band1 := flat100; dem_more_bands := [] |}.

Definition dem_naive : DatasetReader :=
  {| dem_crs := None; dem_band1 := flat100; dem_more_bands := [] |}.

Definition updater : PointElevationUpdater :=
  {| dem_path := "example.tif"; dem := dem_utm |}.

Definition updater_naive : PointElevationUpdater :=
  {| dem_path := "example.tif"; dem := dem_naive |}.

Definition inside : row :=
  Row [("name", VStr "inside"); ("id", VInt 1)] (Point2D (f64 3) (f64 7)).

Definition outside : row :=
  Row [("name", VStr "outside"); ("id", VInt 2)] (Point2D (f64 1000) (f64 1000)).

Definition two_points (c : option CRS) : GeoDataFrame := GDF c [inside; outside].

Definition no_points (c : option CRS) : GeoDataFrame := GDF c [].

(** A world with one live dataset and an empty disk. *)
Definition holding (g : GeoDataFrame) : world :=
  World {[ 1%positive := g ]} ∅ ∅ [].

(** A world with one shapefile on disk and no live object. *)
Definition on_disk (path : string) (g : GeoDataFrame) : world :=
  World ∅ {[ os_path.dirname path ]}
        {[ path := VectorFile "ESRI Shapefile" "utf-8" g ]} [].

Definition naive_error : exn :=
  ValueError "Cannot transform naive geometries.  Please set a crs on the object first.".

(** Worlds with one live dataset. *)
Definition w_utm : world := holding (two_points (Some utm33)).
Definition w_wgs : world := holding (two_points (Some wgs84)).
Definition w_naive : world := holding (two_points None).
Definition w_empty_naive : world := holding (no_points None).
Definition w_empty_wgs : world := holding (no_points (Some wgs84)).

(** What [to_crs] makes of [two_points (Some wgs84)] for the DEM. *)
Definition reprojected : GeoDataFrame :=
  GDF (Some utm33)
      (map (transform_row (swap_axes wgs84 utm33)) (rows (two_points (Some wgs84)))).

(** Worlds with one shapefile on disk, and the steps of the driver on a
    dataset and a DEM that both lack a CRS. *)
Definition w_disk : world := on_disk "in/pts.shp" (two_points (Some wgs84)).
Definition w_disk_naive : world := on_disk "in/pts.shp" (two_points None).
Definition w_read : world :=
  (read_file "in/pts.shp" (logged (LogInfo "Processing: in/pts.shp") w_disk_naive)).2.
Definition w_updated : world :=
  (update_z_values swap_axes updater_naive 1%positive w_read).2.
Definition w_shp : world :=
  (export_shp accept_all 2%positive "out/pts_Z.shp" w_updated).2.
Definition w_json : world :=
  (export_geojson swap_axes accept_all 2%positive "out/pts_Z.geojson" w_shp).2.

End Sample.

Module BatchSample.
Import Sample.

(** A folder [in] with two shapefiles, a text file and a sub-directory. *)
Definition two_shapefiles : world :=
  World ∅ {[ "in"; "in/sub" ]}
        {[ "in/a.shp" := VectorFile "ESRI Shapefile" "utf-8" (two_points (Some wgs84));
           "in/B.SHP" := VectorFile "ESRI Shapefile" "utf-8" (two_points (Some utm33)) ]}
        [].

(** A listing that knows the folder [in] only. *)
Definition ls (folder : string) (w : world) : result (list string) :=
  if String.eqb folder "in" then Ok ["a.shp"; "notes.txt"; "B.SHP"; "sub"]
  else if String.eqb folder "mixed" then Ok ["a.shp"; "b.shp"; "c.shp"]
  else if String.eqb folder "empty" then Ok ["notes.txt"]
  else Err (FileNotFoundError folder).

(** A folder [mixed] whose second shapefile has no CRS. *)
Definition second_is_naive : world :=
  World ∅ {[ "mixed" ]}
        {[ "mixed/a.shp" := VectorFile "ESRI Shapefile" "utf-8" (two_points (Some wgs84));
           "mixed/b.shp" := VectorFile "ESRI Shapefile" "utf-8" (two_points None);
           "mixed/c.shp" := VectorFile "ESRI Shapefile" "utf-8" (two_points (Some utm33)) ]}
        [].

(** The steps of [process_folder] on [mixed]. *)
Definition w_found : world := logged (LogInfo "Found 3 shapefiles.") second_is_naive.
Definition w_first_done : world :=
  (for_each ["a.shp"]
     (λ f, process_shapefile swap_axes accept_all updater (os_path.join "mixed" f) "out")
     w_found).2.
Definition w_second_failed : world :=
  (process_shapefile swap_axes accept_all updater "mixed/b.shp" "out" w_first_done).2.

(** A dataset with a line among its points. *)
Definition with_a_line : GeoDataFrame :=
  GDF (Some utm33) [inside; Row [("name", VStr "track")] (NotAPoint "LineString")].

(** A raster with a second band that holds 7 everywhere. *)
Definition dem_two_bands : DatasetReader :=
  {| dem_crs := Some utm33; dem_band1 := flat100;
     dem_more_bands := [λ _ _, f64 7] |}.

Definition updater_two_bands : PointElevationUpdater :=
  {| dem_path := "two_bands.tif"; dem := dem_two_bands |}.

(** A world in which [out] is a regular file. *)
Definition out_is_a_file : world :=
  World {[ 1%positive := two_points (Some utm33) ]} ∅
        {[ "out" := VectorFile "GeoJSON" "utf-8" (no_points None) ]} [].

(** The world after a first shapefile export and a first GeoJSON export. *)
Definition w_exported_shp : world :=
  (export_shp accept_all 1%positive "out/pts_Z.shp" w_utm).2.
Definition w_exported_json : world :=
  (export_geojson swap_axes accept_all 1%positive "out/pts_Z.geojson" w_utm).2.

(** The world after reading [in/pts.shp] and updating it. *)
Definition w_disk_read : world :=
  (read_file "in/pts.shp" (logged (LogInfo "Processing: in/pts.shp") w_disk)).2.
Definition w_disk_updated : world :=
  (update_z_values swap_axes updater 1%positive w_disk_read).2.

End BatchSample.

(** * Properties *)

(** ** Running computations *)

Lemma bind_unfold {A B} (m : M A) (f : A → M B) (w : world) :
  (m ≫= f) w =
  match m w with
  | (Ok a, w') => f a w'
  | (Err e, w') => (Err e, w')
  end.
Proof. reflexivity. Qed.

Lemma bind_ok {A B} (m : M A) (f : A → M B) w a w1 :
  m w = (Ok a, w1) → (m ≫= f) w = f a w1.
Proof. intros H. by rewrite bind_unfold, H. Qed.

Lemma bind_err {A B} (m : M A) (f : A → M B) w e w1 :
  m w = (Err e, w1) → (m ≫= f) w = (Err e, w1).
Proof. intros H. by rewrite bind_unfold, H. Qed.

Lemma deref_ok l g w : heap w !! l = Some g → deref l w = (Ok g, w).
Proof. intros H. unfold deref. by rewrite H. Qed.

Lemma fresh_unused (w : world) : heap w !! fresh (dom (heap w)) = None.
Proof. apply not_elem_of_dom, is_fresh. Qed.

Section Reprojection.
Context (T : CRS → CRS → Transformer).
Context (wf : string → string → GeoDataFrame → option exn).
Context (self : PointElevationUpdater).

Lemma to_crs_naive w l g target :
  heap w !! l = Some g → crs g = None →
  to_crs T l target w =
    (Err (ValueError "Cannot transform naive geometries.  Please set a crs on the object first."),
     logged (CallToCrs l target) w).
Proof.
  intros Hl Hc. unfold to_crs.
  rewrite bind_unfold. cbn [emit].
  rewrite (bind_ok _ _ _ g (logged (CallToCrs l target) w)) by (by apply deref_ok).
  by rewrite Hc.
Qed.

Lemma to_crs_ok w l g src dst :
  heap w !! l = Some g → crs g = Some src →
  to_crs T l (Some dst) w =
    (Ok (fresh (dom (heap w))),
     with_heap (<[fresh (dom (heap w)) :=
                    GDF (Some dst) (map (transform_row (T src dst)) (rows g))]> (heap w))
               (logged (CallToCrs l (Some dst)) w)).
Proof.
  intros Hl Hc. unfold to_crs.
  rewrite bind_unfold. cbn [emit].
  rewrite (bind_ok _ _ _ g (logged (CallToCrs l (Some dst)) w)) by (by apply deref_ok).
  by rewrite Hc.
Qed.

Lemma ensure_same_crs_equal w l g :
  heap w !! l = Some g → crs g = dem_crs (dem self) →
  _ensure_same_crs T self l w = (Ok l, w).
Proof.
  intros Hl Hc. unfold _ensure_same_crs.
  rewrite (bind_ok _ _ _ g w) by (by apply deref_ok).
  rewrite bool_decide_eq_false_2; [done | by intros ?].
Qed.

Lemma ensure_same_crs_differ w l g :
  heap w !! l = Some g → crs g ≠ dem_crs (dem self) →
  _ensure_same_crs T self l w =
    to_crs T l (dem_crs (dem self))
           (logged (LogInfo "CRS mismatch detected → Reprojecting points to DEM CRS...") w).
Proof.
  intros Hl Hc. unfold _ensure_same_crs.
  rewrite (bind_ok _ _ _ g w) by (by apply deref_ok).
  rewrite bool_decide_eq_true_2 by done. reflexivity.
Qed.
End Reprojection.

(** ** Sampling and rewriting *)

Lemma mapM_result_Forall2 {A B} (f : A → result B) (l : list A) (k : list B) :
  mapM f l = Ok k ↔ Forall2 (λ a b, f a = Ok b) l k.
Proof.
  revert k. induction l as [|a l IH]; intros k; cbn.
  - split.
    + intros [= <-]. constructor.
    + intros H. inversion H. reflexivity.
  - unfold mbind, result_bind, mret, result_ret in *. split.
    + destruct (f a) as [b|e] eqn:Hb; [|discriminate].
      destruct (mapM f l) as [k'|e] eqn:Hk; [|discriminate].
      intros [= <-]. constructor; [done|]. by apply IH.
    + intros H. inversion H as [|a' b l' k' Hab Hlk]; subst.
      rewrite Hab. apply IH in Hlk. by rewrite Hlk.
Qed.

Lemma mapM_result_total {A B} (f : A → result B) (P : A → Prop) (l : list A) :
  (∀ a, P a → ∃ b, f a = Ok b) → Forall P l → ∃ k, mapM f l = Ok k.
Proof.
  intros Hf. induction 1 as [|a l Ha _ [k Hk]].
  - by exists [].
  - destruct (Hf a Ha) as [b Hb]. exists (b :: k).
    apply mapM_result_Forall2. constructor; [done|].
    by apply mapM_result_Forall2.
Qed.

Lemma point_has_xy geom :
  is_point geom = true → ∃ x y, geom_x geom = Ok x ∧ geom_y geom = Ok y.
Proof. destruct geom; cbn; [eauto..|discriminate]. Qed.

Lemma coords_of_Forall2 geoms coords :
  coords_of geoms = Ok coords ↔
  Forall2 (λ g c, geom_x g = Ok c.1 ∧ geom_y g = Ok c.2) geoms coords.
Proof.
  unfold coords_of. rewrite mapM_result_Forall2.
  split; intros H; (eapply Forall2_impl; [exact H|]); intros g [x y]; cbn.
  - destruct g; cbn; unfold mret, result_ret; try discriminate; by intros [= -> ->].
  - intros [-> ->]. reflexivity.
Qed.

Lemma coords_of_points geoms coords :
  coords_of geoms = Ok coords →
  Forall (λ g, is_point g = true) geoms ∧ length coords = length geoms.
Proof.
  rewrite coords_of_Forall2. intros H. split.
  - induction H as [|g c ?? [Hx _] _ IH]; constructor; [|done].
    by destruct g.
  - symmetry. by eapply Forall2_length.
Qed.

Lemma coords_of_total geoms :
  Forall (λ g, is_point g = true) geoms → ∃ coords, coords_of geoms = Ok coords.
Proof.
  apply mapM_result_total. intros g Hg.
  destruct (point_has_xy g Hg) as (x & y & -> & ->). by exists (x, y).
Qed.

Lemma rewrite_geometry_finite geom z x y :
  np_isfinite z = true → geom_x geom = Ok x → geom_y geom = Ok y →
  rewrite_geometry geom z = Ok (Point3D x y z).
Proof. intros Hz Hx Hy. unfold rewrite_geometry. by rewrite Hz, Hx, Hy. Qed.

Lemma rewrite_geometry_non_finite geom z :
  np_isfinite z = false → rewrite_geometry geom z = Ok geom.
Proof. intros Hz. unfold rewrite_geometry. by rewrite Hz. Qed.

Lemma rewrite_geometry_total geom z :
  is_point geom = true → ∃ geom', rewrite_geometry geom z = Ok geom'.
Proof.
  intros Hg. destruct (np_isfinite z) eqn:Hz.
  - destruct (point_has_xy geom Hg) as (x & y & Hx & Hy).
    eauto using rewrite_geometry_finite.
  - eauto using rewrite_geometry_non_finite.
Qed.

Lemma rewrite_geometries_total geoms elevations :
  Forall (λ g, is_point g = true) geoms →
  ∃ new_geoms, rewrite_geometries (zip geoms elevations) = Ok new_geoms.
Proof.
  intros Hg. unfold rewrite_geometries.
  apply (mapM_result_total _ (λ gz, is_point gz.1 = true)).
  - intros [g z] Hp. by apply rewrite_geometry_total.
  - revert elevations. induction Hg as [|g geoms Hp _ IH]; intros [|z zs]; cbn;
      constructor; [done | apply IH].
Qed.

Lemma rewrite_geometries_lookup pairs new_geoms :
  rewrite_geometries pairs = Ok new_geoms →
  length new_geoms = length pairs ∧
  ∀ i geom z, pairs !! i = Some (geom, z) →
    ∃ geom', new_geoms !! i = Some geom' ∧ rewrite_geometry geom z = Ok geom'.
Proof.
  unfold rewrite_geometries. rewrite mapM_result_Forall2. intros H. split.
  - symmetry. by eapply Forall2_length.
  - intros i geom z Hi.
    destruct (Forall2_lookup_l _ _ _ _ _ H Hi) as (geom' & Hi' & Hr). eauto.
Qed.

Lemma length_dem_sample d coords :
  length (np_flatten (dem_sample d coords)) =
  length coords * S (length (dem_more_bands d)).
Proof.
  unfold np_flatten, dem_sample. induction coords as [|c coords IH]; [done|].
  cbn [map concat]. rewrite length_app, IH. cbn. by rewrite length_map.
Qed.

(** With a one-band raster the sampler's output is aligned with the
    coordinates: position [i] holds the band's value at coordinate [i]. *)
Lemma dem_sample_one_band d coords i x y :
  dem_more_bands d = [] →
  coords !! i = Some (x, y) →
  np_flatten (dem_sample d coords) !! i = Some (dem_band1 d x y).
Proof.
  intros Hb. unfold np_flatten, dem_sample. rewrite Hb.
  revert i. induction coords as [|c coords IH]; intros [|i]; cbn; try done.
  - by intros [= ->].
  - apply IH.
Qed.

Lemma length_zip_sample d (geoms : list geometry) coords :
  length coords = length geoms →
  length (zip geoms (np_flatten (dem_sample d coords))) = length geoms.
Proof.
  intros H. rewrite length_zip_with, length_dem_sample, H. nia.
Qed.

(** Replacing the geometry column. *)
Lemma fields_zip_with (rs : list row) (gs : list geometry) :
  length gs = length rs →
  map fields (zip_with (λ r ng, Row (fields r) ng) rs gs) = map fields rs.
Proof.
  revert gs. induction rs as [|r rs IH]; intros [|g gs]; cbn; try done.
  intros [= H]. by rewrite IH.
Qed.

Lemma geom_zip_with (rs : list row) (gs : list geometry) :
  length gs = length rs →
  map geom (zip_with (λ r ng, Row (fields r) ng) rs gs) = gs.
Proof.
  revert gs. induction rs as [|r rs IH]; intros [|g gs]; cbn; try done.
  intros [= H]. by rewrite IH.
Qed.

Section Sampling.
Context (T : CRS → CRS → Transformer).
Context (self : PointElevationUpdater).

Lemma sample_elevations_ok w l g coords :
  heap w !! l = Some g → coords_of (geometry_column g) = Ok coords →
  _sample_elevations self l w =
    (Ok (np_flatten (dem_sample (dem self) coords)),
     logged (CallSample (length coords)) w).
Proof.
  intros Hl Hc. unfold _sample_elevations.
  rewrite (bind_ok _ _ _ g w) by (by apply deref_ok).
  by rewrite Hc.
Qed.

Lemma sample_elevations_err w l g e :
  heap w !! l = Some g → coords_of (geometry_column g) = Err e →
  _sample_elevations self l w = (Err e, w).
Proof.
  intros Hl Hc. unfold _sample_elevations.
  rewrite (bind_ok _ _ _ g w) by (by apply deref_ok).
  by rewrite Hc.
Qed.

Lemma update_z_values_ok w l l1 w1 g coords new_geoms :
  _ensure_same_crs T self l w = (Ok l1, w1) →
  heap w1 !! l1 = Some g →
  coords_of (geometry_column g) = Ok coords →
  rewrite_geometries
    (zip (geometry_column g) (np_flatten (dem_sample (dem self) coords))) = Ok new_geoms →
  update_z_values T self l w =
    (Ok (fresh (dom (heap w1))),
     with_heap (<[fresh (dom (heap w1)) :=
                    GDF (crs g) (zip_with (λ r ng, Row (fields r) ng) (rows g) new_geoms)]>
                  (heap w1))
               (logged (CallSample (length coords)) w1)).
Proof.
  intros Hr Hl Hc Hn. unfold update_z_values.
  rewrite (bind_ok _ _ _ _ _ Hr).
  rewrite (bind_ok _ _ _ _ _ (sample_elevations_ok _ _ _ _ Hl Hc)).
  rewrite (bind_ok _ _ _ g (logged (CallSample (length coords)) w1))
    by (by apply deref_ok).
  rewrite Hn. unfold lift at 1. rewrite bind_unfold.
  unfold copy. rewrite bind_unfold.
  rewrite (bind_ok _ _ _ g (logged (CallSample (length coords)) w1))
    by (by apply deref_ok).
  unfold alloc; cbn [heap logged with_heap].
  unfold set_geometry. rewrite bind_unfold, bind_unfold.
  unfold deref at 1; cbn [heap with_heap]. rewrite lookup_insert_eq.
  destruct (rewrite_geometries_lookup _ _ Hn) as [Hlen _].
  destruct (coords_of_points _ _ Hc) as [_ Hlc].
  rewrite length_zip_sample in Hlen by done.
  unfold geometry_column in Hlen. rewrite length_map in Hlen.
  rewrite bool_decide_eq_true_2 by done.
  unfold store, with_heap, logged; cbn. by rewrite insert_insert_eq.
Qed.
End Sampling.

(** ** Live objects are never written to *)

Lemma objects_kept_refl w : objects_kept w w.
Proof. by intros l g. Qed.

Lemma objects_kept_trans w1 w2 w3 :
  objects_kept w1 w2 → objects_kept w2 w3 → objects_kept w1 w3.
Proof. intros H12 H23 l g Hl. by apply H23, H12. Qed.

Lemma objects_kept_same_heap w w' : heap w' = heap w → objects_kept w w'.
Proof. intros H l g. by rewrite H. Qed.

Lemma objects_kept_alloc w g :
  objects_kept w (with_heap (<[fresh (dom (heap w)) := g]> (heap w)) w).
Proof.
  intros l g' Hl. cbn. rewrite lookup_insert_ne; [done|].
  intros <-. by rewrite fresh_unused in Hl.
Qed.

Lemma keeps_objects_bind {A B} (m : M A) (f : A → M B) :
  keeps_objects m → (∀ a, keeps_objects (f a)) → keeps_objects (m ≫= f).
Proof.
  intros Hm Hf w. rewrite bind_unfold. specialize (Hm w).
  destruct (m w) as [[a|e] w1]; cbn in *; [|done].
  eapply objects_kept_trans; [exact Hm | apply Hf].
Qed.

Lemma keeps_objects_ret {A} (a : A) : keeps_objects (mret a : M A).
Proof. intros w. apply objects_kept_refl. Qed.

Lemma keeps_objects_raise {A} e : keeps_objects (raise e : M A).
Proof. intros w. apply objects_kept_refl. Qed.

Lemma keeps_objects_lift {A} (r : result A) : keeps_objects (lift r).
Proof. intros w. apply objects_kept_refl. Qed.

Lemma keeps_objects_emit ev : keeps_objects (emit ev).
Proof. intros w. by apply objects_kept_same_heap. Qed.

Lemma keeps_objects_deref l : keeps_objects (deref l).
Proof. intros w. unfold deref. destruct (heap w !! l); apply objects_kept_refl. Qed.

Lemma keeps_objects_alloc g : keeps_objects (alloc g).
Proof. intros w. apply objects_kept_alloc. Qed.

Lemma keeps_objects_makedirs name : keeps_objects (os_makedirs name).
Proof.
  apply keeps_objects_bind; [apply keeps_objects_emit|].
  intros _ w. cbv beta. destruct (String.eqb name EmptyString); [apply objects_kept_refl|].
  case_bool_decide; by apply objects_kept_same_heap.
Qed.


Lemma keeps_objects_copy l : keeps_objects (copy l).
Proof.
  apply keeps_objects_bind; [apply keeps_objects_deref|].
  intros g. apply keeps_objects_alloc.
Qed.

(** Copying and then replacing the geometry column of the copy. *)
Lemma keeps_objects_copy_set_geometry l new_geoms :
  keeps_objects (updated ← copy l; _ ← set_geometry updated new_geoms; mret updated).
Proof.
  intros w. unfold copy. rewrite !bind_unfold. unfold deref at 1.
  destruct (heap w !! l) as [g|] eqn:Hl; [|apply objects_kept_refl].
  cbn [alloc]. unfold set_geometry. rewrite !bind_unfold.
  unfold deref; cbn [heap with_heap]. rewrite lookup_insert_eq.
  case_bool_decide; cbn; [|apply objects_kept_alloc].
  intros l0 g0 Hl0. cbn. rewrite insert_insert_eq, lookup_insert_ne; [done|].
  intros <-. by rewrite fresh_unused in Hl0.
Qed.

Section Frames.
Context (T : CRS → CRS → Transformer).
Context (wf : string → string → GeoDataFrame → option exn).
Context (self : PointElevationUpdater).

Lemma keeps_objects_to_crs l target : keeps_objects (to_crs T l target).
Proof.
  apply keeps_objects_bind; [apply keeps_objects_emit|]. intros _.
  apply keeps_objects_bind; [apply keeps_objects_deref|]. intros g.
  destruct (crs g); [|apply keeps_objects_raise].
  destruct target; [apply keeps_objects_alloc|apply keeps_objects_raise].
Qed.

Lemma keeps_objects_to_file l path driver encoding :
  keeps_objects (to_file wf l path driver encoding).
Proof.
  apply keeps_objects_bind; [apply keeps_objects_emit|]. intros _.
  apply keeps_objects_bind; [apply keeps_objects_deref|]. intros g w.
  cbv beta zeta. destruct (negb _ && negb _); [apply objects_kept_refl|].
  destruct (wf _ _ _); by apply objects_kept_same_heap.
Qed.

Lemma keeps_objects_ensure_same_crs l : keeps_objects (_ensure_same_crs T self l).
Proof.
  apply keeps_objects_bind; [apply keeps_objects_deref|]. intros g.
  case_bool_decide; [|apply keeps_objects_ret].
  apply keeps_objects_bind; [apply keeps_objects_emit|]. intros _.
  apply keeps_objects_to_crs.
Qed.

Lemma keeps_objects_sample_elevations l : keeps_objects (_sample_elevations self l).
Proof.
  apply keeps_objects_bind; [apply keeps_objects_deref|]. intros g.
  apply keeps_objects_bind; [apply keeps_objects_lift|]. intros coords.
  apply keeps_objects_bind; [apply keeps_objects_emit|]. intros _.
  apply keeps_objects_ret.
Qed.

Lemma keeps_objects_update_z_values l : keeps_objects (update_z_values T self l).
Proof.
  apply keeps_objects_bind; [apply keeps_objects_ensure_same_crs|]. intros l1.
  apply keeps_objects_bind; [apply keeps_objects_sample_elevations|]. intros elevations.
  apply keeps_objects_bind; [apply keeps_objects_deref|]. intros g.
  apply keeps_objects_bind; [apply keeps_objects_lift|]. intros new_geoms.
  apply keeps_objects_copy_set_geometry.
Qed.


Lemma keeps_objects_export_geojson l path : keeps_objects (export_geojson T wf l path).
Proof.
  apply keeps_objects_bind; [apply keeps_objects_makedirs|]. intros _.
  apply keeps_objects_bind; [apply keeps_objects_to_crs|]. intros l'.
  apply keeps_objects_bind; [apply keeps_objects_to_file|]. intros _.
  apply keeps_objects_emit.
Qed.
End Frames.

(** ** The CRS reconciler and [update_z_values] *)

Lemma is_point_transform t g : is_point (transform_geometry t g) = is_point g.
Proof.
  destruct g as [x y|x y z|k]; cbn; [| |done].
  - by destruct (transform_xy t x y).
  - by destruct (transform_xyz t x y z) as [[??]?].
Qed.

Lemma attribute_columns_transform t rs :
  map fields (map (transform_row t) rs) = map fields rs.
Proof. rewrite map_map. by apply map_ext. Qed.

Lemma is_point_dataset_transform c t D :
  is_point_dataset (GDF c (map (transform_row t) (rows D))) = is_point_dataset D.
Proof.
  unfold is_point_dataset, geometry_column; cbn.
  induction (rows D) as [|r rs IH]; [done|]. cbn.
  by rewrite is_point_transform, IH.
Qed.

Lemma is_point_dataset_Forall g :
  is_point_dataset g = true → Forall (λ g, is_point g = true) (geometry_column g).
Proof.
  unfold is_point_dataset. intros H. apply Forall_forall. intros x Hx.
  rewrite forallb_forall in H. apply H. by apply list_elem_of_In.
Qed.

Section Reconcile.
Context (T : CRS → CRS → Transformer).
Context (self : PointElevationUpdater).

Lemma to_crs_no_target w l g src :
  heap w !! l = Some g → crs g = Some src →
  to_crs T l None w =
    (Err (ValueError "Must pass either crs or epsg."), logged (CallToCrs l None) w).
Proof.
  intros Hl Hc. unfold to_crs.
  rewrite bind_unfold. cbn [emit].
  rewrite (bind_ok _ _ _ g (logged (CallToCrs l None) w)) by (by apply deref_ok).
  by rewrite Hc.
Qed.

(** What the reconciler hands on when it returns. *)
Lemma ensure_same_crs_returns w l D l1 w1 :
  heap w !! l = Some D →
  _ensure_same_crs T self l w = (Ok l1, w1) →
  ∃ g, heap w1 !! l1 = Some g ∧
       crs g = dem_crs (dem self) ∧
       attribute_columns g = attribute_columns D ∧
       is_point_dataset g = is_point_dataset D ∧
       files w1 = files w ∧ dirs w1 = dirs w.
Proof.
  intros Hl. destruct (decide (crs D = dem_crs (dem self))) as [Heq|Hne].
  - rewrite (ensure_same_crs_equal _ _ _ _ _ Hl Heq). intros [= <- <-].
    by exists D.
  - rewrite (ensure_same_crs_differ _ _ _ _ _ Hl Hne).
    destruct (crs D) as [src|] eqn:Hc.
    + destruct (dem_crs (dem self)) as [dst|] eqn:Hd.
      * erewrite to_crs_ok by (done || exact Hc). intros [= <- <-].
        eexists. cbn. rewrite lookup_insert_eq. split; [done|].
        split_and!; try done; [apply attribute_columns_transform|].
        apply is_point_dataset_transform.
      * erewrite to_crs_no_target by (done || exact Hc). discriminate.
    + erewrite to_crs_naive by done. discriminate.
Qed.

(** When the reconciler returns. *)
Lemma ensure_same_crs_total w l D :
  heap w !! l = Some D →
  crs D = dem_crs (dem self) ∨ is_Some (crs D) ∧ is_Some (dem_crs (dem self)) →
  ∃ l1 w1, _ensure_same_crs T self l w = (Ok l1, w1).
Proof.
  intros Hl Hc. destruct (decide (crs D = dem_crs (dem self))) as [Heq|Hne].
  - rewrite (ensure_same_crs_equal _ _ _ _ _ Hl Heq). eauto.
  - destruct Hc as [?|[[src Hs] [dst Hd]]]; [done|].
    rewrite (ensure_same_crs_differ _ _ _ _ _ Hl Hne), Hd.
    erewrite to_crs_ok by (done || exact Hs). eauto.
Qed.

Lemma update_z_values_reconcile_err w l e w1 :
  _ensure_same_crs T self l w = (Err e, w1) →
  update_z_values T self l w = (Err e, w1).
Proof. intros H. unfold update_z_values. by rewrite (bind_err _ _ _ _ _ H). Qed.

Lemma update_z_values_sample_err w l l1 w1 g e :
  _ensure_same_crs T self l w = (Ok l1, w1) →
  heap w1 !! l1 = Some g →
  coords_of (geometry_column g) = Err e →
  update_z_values T self l w = (Err e, w1).
Proof.
  intros Hr Hl Hc. unfold update_z_values.
  rewrite (bind_ok _ _ _ _ _ Hr).
  by rewrite (bind_err _ _ _ _ _ (sample_elevations_err _ _ _ _ _ Hl Hc)).
Qed.

(** How a returning run of [update_z_values] went. *)
Lemma update_z_values_inv w l D l' w' :
  heap w !! l = Some D →
  update_z_values T self l w = (Ok l', w') →
  ∃ l1 w1 g coords new_geoms,
    _ensure_same_crs T self l w = (Ok l1, w1) ∧
    heap w1 !! l1 = Some g ∧
    coords_of (geometry_column g) = Ok coords ∧
    rewrite_geometries
      (zip (geometry_column g) (np_flatten (dem_sample (dem self) coords)))
      = Ok new_geoms ∧
    l' = fresh (dom (heap w1)) ∧
    w' = with_heap (<[l' := GDF (crs g)
                                (zip_with (λ r ng, Row (fields r) ng) (rows g) new_geoms)]>
                      (heap w1))
                   (logged (CallSample (length coords)) w1).
Proof.
  intros Hl Hu.
  destruct (_ensure_same_crs T self l w) as [[l1|e] w1] eqn:Hr.
  - destruct (ensure_same_crs_returns _ _ _ _ _ Hl Hr) as (g & Hg & _).
    destruct (coords_of (geometry_column g)) as [coords|e] eqn:Hc.
    + destruct (coords_of_points _ _ Hc) as [Hp _].
      destruct (rewrite_geometries_total _
                  (np_flatten (dem_sample (dem self) coords)) Hp) as [new_geoms Hn].
      rewrite (update_z_values_ok _ _ _ _ _ _ _ _ _ Hr Hg Hc Hn) in Hu.
      injection Hu as <- <-. by exists l1, w1, g, coords, new_geoms.
    + rewrite (update_z_values_sample_err _ _ _ _ _ _ Hr Hg Hc) in Hu. discriminate.
  - rewrite (update_z_values_reconcile_err _ _ _ _ Hr) in Hu. discriminate.
Qed.

(** C1.  Every (geometry, sampled elevation) pair that [update_z_values]
    processes: the geometry at a position of the dataset the loop iterates
    over (the reconciled point dataset [g]) and the sampler's output at the
    same position.  When the elevation is finite the output geometry at that
    position is the 3D point with the x and y of the input point and the
    sampled value as z; when it is not finite the output geometry is the
    input geometry itself, so a 2D point stays 2D.  The run returns the
    dataset these geometries are in. *)
Theorem update_z_values_rewrites_each_pair w l l1 w1 g :
  _ensure_same_crs T self l w = (Ok l1, w1) →
  heap w1 !! l1 = Some g →
  is_point_dataset g = true →
  ∃ elevations ws l' w' out,
    _sample_elevations self l1 w1 = (Ok elevations, ws) ∧
    update_z_values T self l w = (Ok l', w') ∧
    heap w' !! l' = Some out ∧
    ∀ i geom z,
      geometry_column g !! i = Some geom → elevations !! i = Some z →
      ∃ geom', geometry_column out !! i = Some geom' ∧
        (np_isfinite z = true →
           ∃ x y, geom_x geom = Ok x ∧ geom_y geom = Ok y ∧ geom' = Point3D x y z) ∧
        (np_isfinite z = false → geom' = geom ∧ has_z geom' = has_z geom).
Proof.
  intros Hr Hg Hp.
  apply is_point_dataset_Forall in Hp.
  destruct (coords_of_total _ Hp) as [coords Hc].
  destruct (rewrite_geometries_total _
              (np_flatten (dem_sample (dem self) coords)) Hp) as [new_geoms Hn].
  destruct (rewrite_geometries_lookup _ _ Hn) as [Hlen Hnth].
  destruct (coords_of_points _ _ Hc) as [_ Hlc].
  rewrite length_zip_sample in Hlen by done.
  unfold geometry_column in Hlen at 1. rewrite length_map in Hlen.
  eexists _, _, _, _, _.
  split; [exact (sample_elevations_ok _ _ _ _ _ Hg Hc)|].
  split; [exact (update_z_values_ok _ _ _ _ _ _ _ _ _ Hr Hg Hc Hn)|].
  split; [cbn; by rewrite lookup_insert_eq|].
  intros i geom z Hi Hz.
  destruct (Hnth i geom z) as (geom' & Hi' & Hrw).
  { apply lookup_zip_with_Some. by exists geom, z. }
  exists geom'. unfold geometry_column at 1; cbn [rows].
  rewrite geom_zip_with by done. split; [done|].
  unfold rewrite_geometry in Hrw. split; intros Hf; rewrite Hf in Hrw.
  - destruct geom as [x y|x y z0|k]; cbn in Hrw; try discriminate;
      injection Hrw as <-; by exists x, y.
  - by injection Hrw as <-.
Qed.

(** C2.  For every point dataset [D], the dataset [update_z_values] returns
    has as many records as [D], and the attribute fields of its records are
    those of [D], position by position: only the geometry column differs.
    The call returns such a dataset whenever the CRS of [D] equals the
    DEM's or both are defined, that is, whenever the CRS reconciliation
    does not raise. *)
Theorem update_z_values_preserves_records w l D :
  heap w !! l = Some D →
  is_point_dataset D = true →
  (∀ l' w', update_z_values T self l w = (Ok l', w') →
     ∃ out, heap w' !! l' = Some out ∧
            length (rows out) = length (rows D) ∧
            attribute_columns out = attribute_columns D) ∧
  (crs D = dem_crs (dem self) ∨ is_Some (crs D) ∧ is_Some (dem_crs (dem self)) →
   ∃ l' w', update_z_values T self l w = (Ok l', w')).
Proof.
  intros Hl Hp. split.
  - intros l' w' Hu.
    destruct (update_z_values_inv _ _ _ _ _ Hl Hu)
      as (l1 & w1 & g & coords & new_geoms & Hr & Hg & Hc & Hn & -> & ->).
    destruct (ensure_same_crs_returns _ _ _ _ _ Hl Hr) as (g' & Hg' & _ & Ha & _).
    assert (g' = g) as -> by congruence.
    destruct (rewrite_geometries_lookup _ _ Hn) as [Hlen _].
    destruct (coords_of_points _ _ Hc) as [_ Hlc].
    rewrite length_zip_sample in Hlen by done.
    unfold geometry_column in Hlen. rewrite length_map in Hlen.
    eexists. split; [cbn; by rewrite lookup_insert_eq|].
    assert (attribute_columns
              (GDF (crs g) (zip_with (λ r ng, Row (fields r) ng) (rows g) new_geoms))
            = attribute_columns D) as Hattrs.
    { rewrite <- Ha. unfold attribute_columns; cbn. by apply fields_zip_with. }
    split; [|done].
    apply (f_equal length) in Hattrs. unfold attribute_columns in Hattrs.
    by rewrite !length_map in Hattrs.
  - intros Hc0.
    destruct (ensure_same_crs_total _ _ _ Hl Hc0) as (l1 & w1 & Hr).
    destruct (ensure_same_crs_returns _ _ _ _ _ Hl Hr) as (g & Hg & _ & _ & Hpg & _).
    rewrite Hp in Hpg. apply is_point_dataset_Forall in Hpg.
    destruct (coords_of_total _ Hpg) as [coords Hc].
    destruct (rewrite_geometries_total _
                (np_flatten (dem_sample (dem self) coords)) Hpg) as [new_geoms Hn].
    eexists _, _. exact (update_z_values_ok _ _ _ _ _ _ _ _ _ Hr Hg Hc Hn).
Qed.

(** C5.  [update_z_values] does not mutate its input: whatever the outcome,
    the input object holds after the call what it held before, and so does
    every other object that was live; the dataset it returns is a new object,
    distinct from the input. *)
Theorem update_z_values_keeps_input w l D :
  heap w !! l = Some D →
  heap (update_z_values T self l w).2 !! l = Some D ∧
  objects_kept w (update_z_values T self l w).2 ∧
  ∀ l', (update_z_values T self l w).1 = Ok l' →
        heap w !! l' = None ∧ l' ≠ l ∧ is_Some (heap (update_z_values T self l w).2 !! l').
Proof.
  intros Hl. pose proof (keeps_objects_update_z_values T self l w) as Hk.
  split; [by apply Hk|]. split; [done|].
  intros l' Hl'.
  destruct (update_z_values T self l w) as [r w'] eqn:Hu. cbn in Hl'. subst r.
  destruct (update_z_values_inv _ _ _ _ _ Hl Hu)
    as (l1 & w1 & g & coords & new_geoms & Hr & Hg & Hc & Hn & -> & ->).
  pose proof (keeps_objects_ensure_same_crs T self l w) as Hk1.
  rewrite Hr in Hk1. cbn in Hk1.
  assert (heap w !! fresh (dom (heap w1)) = None) as Hnone.
  { destruct (heap w !! fresh (dom (heap w1))) as [g0|] eqn:H0; [|done].
    apply Hk1 in H0. by rewrite fresh_unused in H0. }
  split; [done|]. split; [congruence|].
  cbn. rewrite lookup_insert_eq. by eexists.
Qed.
End Reconcile.

(** ** The exports *)

Lemma bind_ok_inv {A B} (m : M A) (f : A → M B) w b w' :
  (m ≫= f) w = (Ok b, w') → ∃ a w1, m w = (Ok a, w1) ∧ f a w1 = (Ok b, w').
Proof.
  rewrite bind_unfold. destruct (m w) as [[a|e] w1]; [eauto|discriminate].
Qed.

Lemma writes_only_bind {A B} path (m : M A) (f : A → M B) :
  writes_only path m → (∀ a, writes_only path (f a)) → writes_only path (m ≫= f).
Proof.
  intros Hm Hf w p Hp. rewrite bind_unfold. specialize (Hm w p Hp).
  destruct (m w) as [[a|e] w1]; cbn in *; [|done].
  by rewrite Hf.
Qed.

Lemma writes_only_emit path ev : writes_only path (emit ev).
Proof. by intros w p _. Qed.

Lemma writes_only_deref path l : writes_only path (deref l).
Proof. intros w p _. unfold deref. by destruct (heap w !! l). Qed.

Lemma writes_only_raise {A} path e : writes_only path (raise e : M A).
Proof. by intros w p _. Qed.

Lemma writes_only_alloc path g : writes_only path (alloc g).
Proof. by intros w p _. Qed.

Lemma writes_only_makedirs path name : writes_only path (os_makedirs name).
Proof.
  apply writes_only_bind; [apply writes_only_emit|].
  intros _ w p _. cbv beta. destruct (String.eqb name EmptyString); [done|].
  by case_bool_decide.
Qed.

Lemma length_append (a b : string) :
  String.length (a +:+ b) = String.length a + String.length b.
Proof. induction a as [|c a IH]; simpl; [done | by f_equal]. Qed.

Lemma startswith_sep_append base s1 s2 :
  os_path.startswith_sep s1 = os_path.startswith_sep s2 →
  os_path.startswith_sep (base +:+ s1) = os_path.startswith_sep (base +:+ s2).
Proof. by destruct base. Qed.

Lemma join_inj_length a b1 b2 :
  os_path.startswith_sep b1 = os_path.startswith_sep b2 →
  String.length b1 ≠ String.length b2 →
  os_path.join a b1 ≠ os_path.join a b2.
Proof.
  intros Hs Hl Heq. unfold os_path.join in Heq. rewrite Hs in Heq.
  apply (f_equal String.length) in Heq.
  destruct (os_path.startswith_sep b2); [done|].
  destruct (_ || _); rewrite !length_append in Heq; lia.
Qed.

Lemma out_paths_differ shp_path out_dir :
  shp_out_of shp_path out_dir ≠ json_out_of shp_path out_dir.
Proof.
  unfold shp_out_of, json_out_of. apply join_inj_length.
  - by apply startswith_sep_append.
  - rewrite !length_append. cbn. lia.
Qed.

Section Exports.
Context (T : CRS → CRS → Transformer).
Context (wf : string → string → GeoDataFrame → option exn).
Context (self : PointElevationUpdater).

Lemma writes_only_to_crs path l target : writes_only path (to_crs T l target).
Proof.
  apply writes_only_bind; [apply writes_only_emit|]. intros _.
  apply writes_only_bind; [apply writes_only_deref|]. intros g.
  destruct (crs g); [|apply writes_only_raise].
  destruct target; [apply writes_only_alloc|apply writes_only_raise].
Qed.

Lemma writes_only_to_file l path driver encoding :
  writes_only path (to_file wf l path driver encoding).
Proof.
  apply writes_only_bind; [apply writes_only_emit|]. intros _.
  apply writes_only_bind; [apply writes_only_deref|]. intros g w p Hp.
  cbv beta zeta. destruct (negb _ && negb _); [done|].
  destruct (wf _ _ _); [done|]. cbn. by rewrite lookup_insert_ne.
Qed.

Lemma writes_only_export_shp l path : writes_only path (export_shp wf l path).
Proof.
  apply writes_only_bind; [apply writes_only_makedirs|]. intros _.
  apply writes_only_bind; [apply writes_only_to_file|]. intros _.
  apply writes_only_emit.
Qed.

Lemma writes_only_export_geojson l path :
  writes_only path (export_geojson T wf l path).
Proof.
  apply writes_only_bind; [apply writes_only_makedirs|]. intros _.
  apply writes_only_bind; [apply writes_only_to_crs|]. intros l'.
  apply writes_only_bind; [apply writes_only_to_file|]. intros _.
  apply writes_only_emit.
Qed.

(** The whole of [export_shp], case by case. *)
Lemma export_shp_run w l g path :
  heap w !! l = Some g →
  export_shp wf l path w =
    let d := os_path.dirname path in
    let w1 := logged (CallMakedirs d) w in
    if String.eqb d EmptyString then (Err (FileNotFoundError d), w1)
    else if bool_decide (is_Some (files w !! d)) then (Err (FileExistsError d), w1)
    else
      let w2 := logged (CallToFile l path "ESRI Shapefile")
                       (with_dirs ({[d]} ∪ dirs w) w1) in
      match wf "ESRI Shapefile" path g with
      | Some e => (Err e, w2)
      | None =>
          (Ok tt,
           logged (LogInfo ("3D Shapefile exported → " +:+ path))
             (with_files (<[path := VectorFile "ESRI Shapefile" "utf-8" g]> (files w)) w2))
      end.
Proof.
  intros Hl. unfold export_shp, os_makedirs, to_file.
  rewrite !bind_unfold. cbn [emit]. cbv beta zeta.
  generalize (os_path.dirname path). intros d.
  destruct (String.eqb d EmptyString) eqn:Hd; [done|].
  cbn [files logged]. case_bool_decide; [done|].
  unfold mbind, M_bind, deref. cbn [emit heap logged with_dirs dirs]. rewrite Hl.
  rewrite (bool_decide_eq_true_2 (d ∈ _)) by set_solver.
  cbn [negb andb]. by destruct (wf _ _ _).
Qed.

(** The whole of [export_geojson], case by case. *)
Lemma export_geojson_run w l g path :
  heap w !! l = Some g →
  export_geojson T wf l path w =
    let d := os_path.dirname path in
    let w1 := logged (CallMakedirs d) w in
    if String.eqb d EmptyString then (Err (FileNotFoundError d), w1)
    else if bool_decide (is_Some (files w !! d)) then (Err (FileExistsError d), w1)
    else
      let w2 := logged (CallToCrs l (Some (EPSG 4326)))
                       (with_dirs ({[d]} ∪ dirs w) w1) in
      match crs g with
      | None =>
          (Err (ValueError "Cannot transform naive geometries.  Please set a crs on the object first."), w2)
      | Some src =>
          let l' := fresh (dom (heap w)) in
          let g' := GDF (Some (EPSG 4326))
                        (map (transform_row (T src (EPSG 4326))) (rows g)) in
          let w3 := logged (CallToFile l' path "GeoJSON")
                           (with_heap (<[l' := g']> (heap w)) w2) in
          match wf "GeoJSON" path g' with
          | Some e => (Err e, w3)
          | None =>
              (Ok tt,
               logged (LogInfo ("GeoJSON exported → " +:+ path))
                 (with_files (<[path := VectorFile "GeoJSON" "utf-8" g']> (files w)) w3))
          end
      end.
Proof.
  intros Hl. unfold export_geojson, os_makedirs.
  rewrite !bind_unfold. cbn [emit]. cbv beta zeta.
  destruct (String.eqb (os_path.dirname path) EmptyString) eqn:Hd; [done|].
  cbn [files logged]. case_bool_decide; [done|].
  set (w1 := with_dirs _ _).
  assert (heap w1 !! l = Some g) as Hl1 by done.
  destruct (crs g) as [src|] eqn:Hc.
  - rewrite bind_unfold, (to_crs_ok T w1 l g src (EPSG 4326) Hl1 Hc).
    unfold to_file, mbind, M_bind, deref. cbn [emit heap logged with_heap].
    rewrite lookup_insert_eq. cbv beta zeta.
    rewrite Hd. subst w1. cbn [dirs heap logged with_heap with_dirs].
    rewrite (bool_decide_eq_true_2 (_ ∈ _)) by set_solver.
    cbn [negb andb]. by destruct (wf _ _ _).
  - by rewrite bind_unfold, (to_crs_naive T w1 l g _ Hl1 Hc).
Qed.
End Exports.

Lemma read_file_ok_inv path w l w' :
  read_file path w = (Ok l, w') → ∃ D, heap w' !! l = Some D.
Proof.
  unfold read_file. rewrite bind_unfold. cbn [emit]. cbv beta.
  destruct (files _ !! path) as [f|]; [|discriminate].
  intros [= <- <-]. exists (vf_data f). cbn. by rewrite lookup_insert_eq.
Qed.

Section Contracts.
Context (T : CRS → CRS → Transformer).
Context (wf : string → string → GeoDataFrame → option exn).
Context (self : PointElevationUpdater).

(** C4.  When the CRS of the dataset equals the DEM's, the reconciler returns
    the very object it was given and leaves the world as it was: nothing is
    added to the trace of library calls, so no reprojection call is made. *)
Theorem ensure_same_crs_passthrough w l g :
  heap w !! l = Some g →
  crs g = dem_crs (dem self) →
  _ensure_same_crs T self l w = (Ok l, w) ∧
  trace (_ensure_same_crs T self l w).2 = trace w.
Proof.
  intros Hl Hc. rewrite (ensure_same_crs_equal _ _ _ _ _ Hl Hc). by split.
Qed.

(** C3, amended.  When the CRS of the dataset equals the DEM's the reconciler
    passes the dataset through unchanged.  When both are defined and differ
    it returns a new dataset in the DEM's CRS in which every geometry is
    reprojected.  When the CRS of the dataset is undefined and the DEM's is
    defined, the mismatch is detected and the reprojection is called, and it
    raises [ValueError]: nothing is returned.  The same holds when only the
    DEM's CRS is undefined. *)
Theorem ensure_same_crs_reprojects_defined w l g :
  heap w !! l = Some g →
  (crs g = dem_crs (dem self) → _ensure_same_crs T self l w = (Ok l, w)) ∧
  (∀ src dst,
     crs g = Some src → dem_crs (dem self) = Some dst → src ≠ dst →
     ∃ l' w',
       _ensure_same_crs T self l w = (Ok l', w') ∧
       heap w !! l' = None ∧
       heap w' !! l' =
         Some (GDF (Some dst) (map (transform_row (T src dst)) (rows g)))) ∧
  (∀ dst,
     crs g = None → dem_crs (dem self) = Some dst →
     ∃ w',
       _ensure_same_crs T self l w =
         (Err (ValueError "Cannot transform naive geometries.  Please set a crs on the object first."), w') ∧
       CallToCrs l (Some dst) ∈ trace w' ∧
       heap w' = heap w) ∧
  (∀ src,
     crs g = Some src → dem_crs (dem self) = None →
     ∃ w',
       _ensure_same_crs T self l w =
         (Err (ValueError "Must pass either crs or epsg."), w') ∧
       CallToCrs l None ∈ trace w' ∧
       heap w' = heap w).
Proof.
  intros Hl. split_and!.
  - by apply ensure_same_crs_equal.
  - intros src dst Hs Hd Hne.
    rewrite (ensure_same_crs_differ T self w l g Hl) by congruence.
    rewrite Hd. erewrite to_crs_ok by (done || exact Hs).
    eexists _, _. split; [done|]. split; [exact (fresh_unused w)|].
    cbn. by rewrite lookup_insert_eq.
  - intros dst Hs Hd.
    rewrite (ensure_same_crs_differ T self w l g Hl) by congruence.
    rewrite Hd. erewrite to_crs_naive by done.
    eexists. split; [done|]. split; [|done].
    cbn. set_solver.
  - intros src Hs Hd.
    rewrite (ensure_same_crs_differ T self w l g Hl) by congruence.
    rewrite Hd. erewrite to_crs_no_target by (done || exact Hs).
    eexists. split; [done|]. split; [|done].
    cbn. set_solver.
Qed.

(** C9, amended.  For an empty dataset the sampler returns an empty output
    without error, and [update_z_values] returns an empty dataset without
    error when the CRS of the dataset equals the DEM's or both are
    defined, that is, when the CRS reconciliation does not raise. *)
Theorem update_z_values_empty w l D :
  heap w !! l = Some D →
  rows D = [] →
  _sample_elevations self l w = (Ok [], logged (CallSample 0) w) ∧
  (crs D = dem_crs (dem self) ∨ is_Some (crs D) ∧ is_Some (dem_crs (dem self)) →
   ∃ l' w' out,
     update_z_values T self l w = (Ok l', w') ∧
     heap w' !! l' = Some out ∧
     rows out = []).
Proof.
  intros Hl He. split.
  - apply (sample_elevations_ok self w l D [] Hl).
    unfold geometry_column. by rewrite He.
  - intros Hc.
    destruct (ensure_same_crs_total T self w l D Hl Hc) as (l1 & w1 & Hr).
    destruct (ensure_same_crs_returns _ _ _ _ _ _ _ Hl Hr) as (g & Hg & _ & Ha & _).
    assert (rows g = []) as Hge.
    { unfold attribute_columns in Ha. rewrite He in Ha.
      by destruct (rows g). }
    eexists _, _, _. split.
    + eapply (update_z_values_ok T self w l l1 w1 g [] []); try done;
        unfold geometry_column; by rewrite Hge.
    + cbn. rewrite lookup_insert_eq, Hge. done.
Qed.

(** C10.  [export_geojson] leaves the dataset of its caller as it was,
    whatever the outcome: after the call the object holds the same CRS,
    records and geometries; the reprojection to EPSG:4326 lives in another
    object. *)
Theorem export_geojson_keeps_caller_dataset w l g output_path :
  heap w !! l = Some g →
  heap (export_geojson T wf l output_path w).2 !! l = Some g.
Proof. intros Hl. by apply keeps_objects_export_geojson. Qed.

(** C7, at an output path without directory part (a bare file name): both
    exports call [os.makedirs] with the empty string, which raises
    [FileNotFoundError]; nothing is written, although the destination
    directory, the working directory, exists. *)
Theorem export_bare_filename_raises w l output_path :
  os_path.dirname output_path = EmptyString →
  export_shp wf l output_path w =
    (Err (FileNotFoundError EmptyString), logged (CallMakedirs EmptyString) w) ∧
  export_geojson T wf l output_path w =
    (Err (FileNotFoundError EmptyString), logged (CallMakedirs EmptyString) w).
Proof.
  intros Hd. unfold export_shp, export_geojson, os_makedirs.
  rewrite !bind_unfold, Hd. by cbn.
Qed.

(** With a directory part that is not a regular file, the exports do what
    C7 says: the directory exists afterwards whether or not it existed
    before, and the target holds the new content whatever it held before. *)
Lemma export_shp_ensures_directory w l g output_path :
  heap w !! l = Some g →
  os_path.dirname output_path ≠ EmptyString →
  files w !! os_path.dirname output_path = None →
  wf "ESRI Shapefile" output_path g = None →
  ∃ w',
    export_shp wf l output_path w = (Ok tt, w') ∧
    os_path.dirname output_path ∈ dirs w' ∧
    files w' !! output_path = Some (VectorFile "ESRI Shapefile" "utf-8" g).
Proof.
  intros Hl Hd Hf Hw. rewrite (export_shp_run wf w l g output_path Hl).
  cbv zeta. apply String.eqb_neq in Hd. rewrite Hd.
  rewrite bool_decide_eq_false_2 by (rewrite Hf; by intros [??]).
  rewrite Hw. eexists. split; [done|]. cbn. split; [set_solver|].
  by rewrite lookup_insert_eq.
Qed.

Lemma export_geojson_ensures_directory w l g src output_path :
  heap w !! l = Some g →
  crs g = Some src →
  os_path.dirname output_path ≠ EmptyString →
  files w !! os_path.dirname output_path = None →
  wf "GeoJSON" output_path
     (GDF (Some (EPSG 4326)) (map (transform_row (T src (EPSG 4326))) (rows g))) = None →
  ∃ w',
    export_geojson T wf l output_path w = (Ok tt, w') ∧
    os_path.dirname output_path ∈ dirs w' ∧
    files w' !! output_path =
      Some (VectorFile "GeoJSON" "utf-8"
              (GDF (Some (EPSG 4326)) (map (transform_row (T src (EPSG 4326))) (rows g)))).
Proof.
  intros Hl Hc Hd Hf Hw. rewrite (export_geojson_run T wf w l g output_path Hl).
  cbv zeta. apply String.eqb_neq in Hd. rewrite Hd.
  rewrite bool_decide_eq_false_2 by (rewrite Hf; by intros [??]).
  rewrite Hc, Hw. eexists. split; [done|]. cbn. split; [set_solver|].
  by rewrite lookup_insert_eq.
Qed.

(** What a returning shapefile export did. *)
Lemma export_shp_ok_inv w l g output_path w' :
  heap w !! l = Some g →
  export_shp wf l output_path w = (Ok tt, w') →
  files w' !! output_path = Some (VectorFile "ESRI Shapefile" "utf-8" g) ∧
  os_path.dirname output_path ∈ dirs w' ∧
  heap w' = heap w ∧
  trace w' = (trace w ++ [CallMakedirs (os_path.dirname output_path);
                          CallToFile l output_path "ESRI Shapefile";
                          LogInfo ("3D Shapefile exported → " +:+ output_path)])%list.
Proof.
  intros Hl. rewrite (export_shp_run wf w l g output_path Hl). cbv zeta.
  destruct (String.eqb _ _); [discriminate|].
  case_bool_decide; [discriminate|].
  destruct (wf _ _ _); [discriminate|].
  intros [= <-]. cbn. rewrite lookup_insert_eq.
  split_and!; try done; [set_solver|]. by rewrite <- !app_assoc.
Qed.

(** What a returning GeoJSON export did. *)
Lemma export_geojson_ok_inv w l g output_path w' :
  heap w !! l = Some g →
  export_geojson T wf l output_path w = (Ok tt, w') →
  ∃ src,
    crs g = Some src ∧
    files w' !! output_path =
      Some (VectorFile "GeoJSON" "utf-8"
              (GDF (Some (EPSG 4326))
                   (map (transform_row (T src (EPSG 4326))) (rows g)))) ∧
    os_path.dirname output_path ∈ dirs w'.
Proof.
  intros Hl. rewrite (export_geojson_run T wf w l g output_path Hl). cbv zeta.
  destruct (String.eqb _ _); [discriminate|].
  case_bool_decide; [discriminate|].
  destruct (crs g) as [src|]; [|discriminate].
  destruct (wf _ _ _); [discriminate|].
  intros [= <-]. exists src. cbn. rewrite lookup_insert_eq.
  split_and!; try done. set_solver.
Qed.

(** The GeoJSON export starts by preparing its directory. *)
Lemma export_geojson_trace w l g output_path :
  heap w !! l = Some g →
  ∃ t, trace (export_geojson T wf l output_path w).2 =
       (trace w ++ CallMakedirs (os_path.dirname output_path) :: t)%list.
Proof.
  intros Hl. rewrite (export_geojson_run T wf w l g output_path Hl). cbv zeta.
  destruct (String.eqb _ _); [by exists []|].
  case_bool_decide; [by exists []|].
  destruct (crs g) as [src|]; [|eexists; cbn; by rewrite <- !app_assoc].
  destruct (wf _ _ _); eexists; cbn; by rewrite <- !app_assoc.
Qed.
End Contracts.

(** ** The single-file driver *)

Section Pipeline.
Context (T : CRS → CRS → Transformer).
Context (wf : string → string → GeoDataFrame → option exn).
Context (self : PointElevationUpdater).

(** The dataset [update_z_values] returns is live and in the DEM's CRS. *)
Lemma update_z_values_result_crs w l D u w1 :
  heap w !! l = Some D →
  update_z_values T self l w = (Ok u, w1) →
  ∃ updated, heap w1 !! u = Some updated ∧ crs updated = dem_crs (dem self).
Proof.
  intros Hl Hu.
  destruct (update_z_values_inv _ _ _ _ _ _ _ Hl Hu)
    as (l1 & w0 & g & coords & new_geoms & Hr & Hg & _ & _ & -> & ->).
  destruct (ensure_same_crs_returns _ _ _ _ _ _ _ Hl Hr) as (g' & Hg' & Hc & _).
  assert (g' = g) as -> by congruence.
  eexists. split; [cbn; by rewrite lookup_insert_eq | done].
Qed.

(** C6.  A shapefile export that returns has written the dataset as it is,
    with the ESRI Shapefile driver and UTF-8 encoding.  A GeoJSON export that
    returns has written the dataset reprojected to EPSG:4326, and has left
    both the dataset of its caller and every other file as they were.  In
    the single-file driver the shapefile therefore holds the updated dataset
    in the DEM's CRS, also after the GeoJSON export, and the GeoJSON file
    holds its reprojection to EPSG:4326. *)
Theorem exports_write_as_is_and_wgs84 :
  (∀ w l g output_path w',
     heap w !! l = Some g →
     export_shp wf l output_path w = (Ok tt, w') →
     files w' !! output_path = Some (VectorFile "ESRI Shapefile" "utf-8" g)) ∧
  (∀ w l g output_path w',
     heap w !! l = Some g →
     export_geojson T wf l output_path w = (Ok tt, w') →
     ∃ src,
       crs g = Some src ∧
       files w' !! output_path =
         Some (VectorFile "GeoJSON" "utf-8"
                 (GDF (Some (EPSG 4326))
                      (map (transform_row (T src (EPSG 4326))) (rows g)))) ∧
       heap w' !! l = Some g ∧
       ∀ p, p ≠ output_path → files w' !! p = files w !! p) ∧
  (∀ shp_path out_dir w w',
     process_shapefile T wf self shp_path out_dir w = (Ok tt, w') →
     ∃ u updated src,
       heap w' !! u = Some updated ∧
       crs updated = dem_crs (dem self) ∧
       crs updated = Some src ∧
       files w' !! shp_out_of shp_path out_dir =
         Some (VectorFile "ESRI Shapefile" "utf-8" updated) ∧
       files w' !! json_out_of shp_path out_dir =
         Some (VectorFile "GeoJSON" "utf-8"
                 (GDF (Some (EPSG 4326))
                      (map (transform_row (T src (EPSG 4326))) (rows updated))))).
Proof.
  split_and!.
  - intros w l g output_path w' Hl Hs.
    by destruct (export_shp_ok_inv wf _ _ _ _ _ Hl Hs) as (? & _).
  - intros w l g output_path w' Hl Hj.
    destruct (export_geojson_ok_inv T wf _ _ _ _ _ Hl Hj) as (src & Hc & Hf & _).
    exists src. split_and!; try done.
    + pose proof (keeps_objects_export_geojson T wf l output_path w l g Hl) as Hk.
      by rewrite Hj in Hk.
    + intros p Hp.
      pose proof (writes_only_export_geojson T wf l output_path w p Hp) as Hk.
      by rewrite Hj in Hk.
  - intros shp_path out_dir w w' Hp. unfold process_shapefile in Hp.
    apply bind_ok_inv in Hp as ([] & wa & _ & Hp).
    apply bind_ok_inv in Hp as (l & wb & Hread & Hp).
    apply bind_ok_inv in Hp as (u & w1 & Hupd & Hp).
    cbv zeta in Hp.
    fold (shp_out_of shp_path out_dir) (json_out_of shp_path out_dir) in Hp.
    apply bind_ok_inv in Hp as ([] & w2 & Hshp & Hjson).
    destruct (read_file_ok_inv _ _ _ _ Hread) as [D HD].
    destruct (update_z_values_result_crs _ _ _ _ _ HD Hupd) as (updated & Hu & Hc).
    destruct (export_shp_ok_inv wf _ _ _ _ _ Hu Hshp) as (Hfs & _ & Hh & _).
    assert (heap w2 !! u = Some updated) as Hu2 by (by rewrite Hh).
    destruct (export_geojson_ok_inv T wf _ _ _ _ _ Hu2 Hjson) as (src & Hsrc & Hfj & _).
    exists u, updated, src. split_and!; try done.
    + pose proof (keeps_objects_export_geojson T wf u
                    (json_out_of shp_path out_dir) w2 u updated Hu2) as Hk.
      by rewrite Hjson in Hk.
    + pose proof (writes_only_export_geojson T wf u (json_out_of shp_path out_dir) w2
                    (shp_out_of shp_path out_dir) (out_paths_differ _ _)) as Hk.
      rewrite Hjson in Hk. cbn in Hk. by rewrite Hk.
Qed.

(** C8.  In the single-file driver the shapefile export runs before the
    GeoJSON export, and nothing is cleaned up on failure: when the shapefile
    export has returned and the GeoJSON export raises, the driver raises the
    same error, the shapefile written is still on disk, and every call of the
    shapefile export precedes the first call of the GeoJSON export in the
    trace. *)
Theorem process_shapefile_no_rollback shp_path out_dir w l wb u w1 w2 e w3 :
  read_file shp_path (logged (LogInfo ("Processing: " +:+ shp_path)) w) = (Ok l, wb) →
  update_z_values T self l wb = (Ok u, w1) →
  export_shp wf u (shp_out_of shp_path out_dir) w1 = (Ok tt, w2) →
  export_geojson T wf u (json_out_of shp_path out_dir) w2 = (Err e, w3) →
  process_shapefile T wf self shp_path out_dir w = (Err e, w3) ∧
  (∃ updated,
     heap w1 !! u = Some updated ∧
     files w3 !! shp_out_of shp_path out_dir =
       Some (VectorFile "ESRI Shapefile" "utf-8" updated)) ∧
  (∃ t,
     trace w3 =
       (trace w1
          ++ [CallMakedirs (os_path.dirname (shp_out_of shp_path out_dir));
              CallToFile u (shp_out_of shp_path out_dir) "ESRI Shapefile";
              LogInfo ("3D Shapefile exported → " +:+ shp_out_of shp_path out_dir)]
          ++ CallMakedirs (os_path.dirname (json_out_of shp_path out_dir)) :: t)%list).
Proof.
  intros Hread Hupd Hshp Hjson. split_and!.
  - unfold process_shapefile.
    rewrite (bind_ok _ _ w tt (logged (LogInfo ("Processing: " +:+ shp_path)) w))
      by done.
    rewrite (bind_ok _ _ _ _ _ Hread), (bind_ok _ _ _ _ _ Hupd). cbv zeta.
    fold (shp_out_of shp_path out_dir) (json_out_of shp_path out_dir).
    by rewrite (bind_ok _ _ _ _ _ Hshp).
  - destruct (read_file_ok_inv _ _ _ _ Hread) as [D HD].
    destruct (update_z_values_result_crs _ _ _ _ _ HD Hupd) as (updated & Hu & _).
    destruct (export_shp_ok_inv wf _ _ _ _ _ Hu Hshp) as (Hfs & _).
    exists updated. split; [done|].
    pose proof (writes_only_export_geojson T wf u (json_out_of shp_path out_dir) w2
                  (shp_out_of shp_path out_dir) (out_paths_differ _ _)) as Hk.
    rewrite Hjson in Hk. cbn in Hk. by rewrite Hk.
  - destruct (read_file_ok_inv _ _ _ _ Hread) as [D HD].
    destruct (update_z_values_result_crs _ _ _ _ _ HD Hupd) as (updated & Hu & _).
    destruct (export_shp_ok_inv wf _ _ _ _ _ Hu Hshp) as (_ & _ & Hh & Ht).
    assert (heap w2 !! u = Some updated) as Hu2 by (by rewrite Hh).
    destruct (export_geojson_trace T wf w2 u updated
                (json_out_of shp_path out_dir) Hu2) as [t Ht3].
    rewrite Hjson in Ht3. cbn in Ht3. exists t.
    by rewrite Ht3, Ht, <- !app_assoc.
Qed.
End Pipeline.

(** ** Concrete runs *)

Section Witnesses.
Import Sample.
Local Open Scope positive_scope.

(** C1 on two points in the DEM's CRS, one on the raster and one off it. *)
Lemma update_z_values_rewrites_each_pair_witness :
  _ensure_same_crs swap_axes updater 1 w_utm = (Ok 1%positive, w_utm) ∧
  heap w_utm !! 1%positive = Some (two_points (Some utm33)) ∧
  is_point_dataset (two_points (Some utm33)) = true ∧
  ∃ elevations ws l' w' out,
    _sample_elevations updater 1 w_utm = (Ok elevations, ws) ∧
    update_z_values swap_axes updater 1 w_utm = (Ok l', w') ∧
    heap w' !! l' = Some out ∧
    ∀ i geom z,
      geometry_column (two_points (Some utm33)) !! i = Some geom →
      elevations !! i = Some z →
      ∃ geom', geometry_column out !! i = Some geom' ∧
        (np_isfinite z = true →
           ∃ x y, geom_x geom = Ok x ∧ geom_y geom = Ok y ∧ geom' = Point3D x y z) ∧
        (np_isfinite z = false → geom' = geom ∧ has_z geom' = has_z geom).
Proof.
  assert (_ensure_same_crs swap_axes updater 1 w_utm = (Ok 1%positive, w_utm)) as H1
    by (vm_compute; reflexivity).
  assert (heap w_utm !! 1%positive = Some (two_points (Some utm33))) as H2
    by (vm_compute; reflexivity).
  assert (is_point_dataset (two_points (Some utm33)) = true) as H3
    by (vm_compute; reflexivity).
  split_and!; [done..|].
  exact (update_z_values_rewrites_each_pair swap_axes updater w_utm 1 1 w_utm _ H1 H2 H3).
Defined.

(** The two scenarios of the specification on a raster of constant
    elevation 100: a point on the raster gets the elevation as z, a point off
    the raster, where the sample is not finite, stays the 2D point it was. *)
Example update_z_values_scenarios :
  ∃ w',
    update_z_values swap_axes updater 1 w_utm = (Ok 2, w') ∧
    geometry_column <$> heap w' !! 2 =
      Some [Point3D (f64 3) (f64 7) (f64 100); Point2D (f64 1000) (f64 1000)].
Proof. eexists. split; vm_compute; reflexivity. Qed.

(** C3 as stated fails: a dataset without CRS against a DEM in EPSG:32633 is
    a mismatch, and the reconciler raises instead of returning a reprojected
    dataset. *)
Lemma ensure_same_crs_undefined_crs_counterexample :
  heap w_naive !! 1%positive = Some (two_points None) ∧
  crs (two_points None) ≠ dem_crs (dem updater) ∧
  (_ensure_same_crs swap_axes updater 1 w_naive).1 = Err naive_error.
Proof. split_and!; [vm_compute; reflexivity | discriminate | vm_compute; reflexivity]. Qed.

(** C9 as stated fails: on an empty dataset without CRS and a DEM in
    EPSG:32633, [update_z_values] raises. *)
Lemma update_z_values_empty_counterexample :
  heap w_empty_naive !! 1%positive = Some (no_points None) ∧
  rows (no_points None) = [] ∧
  (update_z_values swap_axes updater 1 w_empty_naive).1 = Err naive_error.
Proof. split_and!; vm_compute; reflexivity. Qed.

(** C7 at the bare file name [points_Z.shp]. *)
Lemma export_bare_filename_raises_witness :
  os_path.dirname "points_Z.shp" = EmptyString ∧
  export_shp accept_all 1 "points_Z.shp" w_utm =
    (Err (FileNotFoundError EmptyString), logged (CallMakedirs EmptyString) w_utm) ∧
  export_geojson swap_axes accept_all 1 "points_Z.shp" w_utm =
    (Err (FileNotFoundError EmptyString), logged (CallMakedirs EmptyString) w_utm).
Proof.
  split; [vm_compute; reflexivity|].
  apply (export_bare_filename_raises swap_axes accept_all w_utm 1 "points_Z.shp").
  vm_compute; reflexivity.
Defined.

(** C8 on a dataset and a DEM that both lack a CRS: the shapefile is
    written, then the GeoJSON export raises on the reprojection. *)
Lemma process_shapefile_no_rollback_witness :
  read_file "in/pts.shp" (logged (LogInfo "Processing: in/pts.shp") w_disk_naive)
    = (Ok 1%positive, w_read) ∧
  update_z_values swap_axes updater_naive 1 w_read = (Ok 2%positive, w_updated) ∧
  export_shp accept_all 2 (shp_out_of "in/pts.shp" "out") w_updated = (Ok tt, w_shp) ∧
  export_geojson swap_axes accept_all 2 (json_out_of "in/pts.shp" "out") w_shp
    = (Err naive_error, w_json) ∧
  process_shapefile swap_axes accept_all updater_naive "in/pts.shp" "out" w_disk_naive
    = (Err naive_error, w_json) ∧
  (∃ updated,
     heap w_updated !! 2%positive = Some updated ∧
     files w_json !! shp_out_of "in/pts.shp" "out" =
       Some (VectorFile "ESRI Shapefile" "utf-8" updated)) ∧
  (∃ t,
     trace w_json =
       (trace w_updated
          ++ [CallMakedirs (os_path.dirname (shp_out_of "in/pts.shp" "out"));
              CallToFile 2 (shp_out_of "in/pts.shp" "out") "ESRI Shapefile";
              LogInfo ("3D Shapefile exported → " +:+ shp_out_of "in/pts.shp" "out")]
          ++ CallMakedirs (os_path.dirname (json_out_of "in/pts.shp" "out")) :: t)%list).
Proof.
  assert (read_file "in/pts.shp" (logged (LogInfo "Processing: in/pts.shp") w_disk_naive)
          = (Ok 1%positive, w_read)) as H1 by (vm_compute; reflexivity).
  assert (update_z_values swap_axes updater_naive 1 w_read = (Ok 2%positive, w_updated))
    as H2 by (vm_compute; reflexivity).
  assert (export_shp accept_all 2 (shp_out_of "in/pts.shp" "out") w_updated = (Ok tt, w_shp))
    as H3 by (vm_compute; reflexivity).
  assert (export_geojson swap_axes accept_all 2 (json_out_of "in/pts.shp" "out") w_shp
          = (Err naive_error, w_json)) as H4 by (vm_compute; reflexivity).
  split_and!; [done..| | |];
    apply (process_shapefile_no_rollback swap_axes accept_all updater_naive
             "in/pts.shp" "out" w_disk_naive 1 w_read 2 w_updated w_shp naive_error w_json
             H1 H2 H3 H4).
Defined.

(** C2 on two points in EPSG:4326, which are reprojected first. *)
Lemma update_z_values_preserves_records_witness :
  heap w_wgs !! 1 = Some (two_points (Some wgs84)) ∧
  is_point_dataset (two_points (Some wgs84)) = true ∧
  (∀ l' w', update_z_values swap_axes updater 1 w_wgs = (Ok l', w') →
     ∃ out, heap w' !! l' = Some out ∧
            length (rows out) = length (rows (two_points (Some wgs84))) ∧
            attribute_columns out = attribute_columns (two_points (Some wgs84))) ∧
  (crs (two_points (Some wgs84)) = dem_crs (dem updater) ∨
   is_Some (crs (two_points (Some wgs84))) ∧ is_Some (dem_crs (dem updater)) →
   ∃ l' w', update_z_values swap_axes updater 1 w_wgs = (Ok l', w')).
Proof.
  assert (heap w_wgs !! 1 = Some (two_points (Some wgs84))) as H1
    by (vm_compute; reflexivity).
  assert (is_point_dataset (two_points (Some wgs84)) = true) as H2
    by (vm_compute; reflexivity).
  split_and!; [done..| |];
    apply (update_z_values_preserves_records swap_axes updater w_wgs 1 _ H1 H2).
Defined.

(** C3, amended, on two points in EPSG:4326 against a DEM in EPSG:32633. *)
Lemma ensure_same_crs_reprojects_defined_witness :
  heap w_wgs !! 1 = Some (two_points (Some wgs84)) ∧
  ∃ l' w',
    _ensure_same_crs swap_axes updater 1 w_wgs = (Ok l', w') ∧
    heap w_wgs !! l' = None ∧
    heap w' !! l' = Some reprojected.
Proof.
  assert (heap w_wgs !! 1 = Some (two_points (Some wgs84))) as H1
    by (vm_compute; reflexivity).
  split; [done|].
  destruct (ensure_same_crs_reprojects_defined swap_axes updater w_wgs 1 _ H1)
    as (_ & H & _).
  apply (H wgs84 utm33); [reflexivity | reflexivity | discriminate].
Defined.

(** C4 on two points already in the DEM's CRS. *)
Lemma ensure_same_crs_passthrough_witness :
  heap w_utm !! 1 = Some (two_points (Some utm33)) ∧
  crs (two_points (Some utm33)) = dem_crs (dem updater) ∧
  _ensure_same_crs swap_axes updater 1 w_utm = (Ok 1, w_utm) ∧
  trace (_ensure_same_crs swap_axes updater 1 w_utm).2 = trace w_utm.
Proof.
  assert (heap w_utm !! 1 = Some (two_points (Some utm33))) as H1
    by (vm_compute; reflexivity).
  split_and!; [done | reflexivity | |];
    apply (ensure_same_crs_passthrough swap_axes updater w_utm 1 _ H1 eq_refl).
Defined.

(** C5 on two points in EPSG:4326. *)
Lemma update_z_values_keeps_input_witness :
  heap w_wgs !! 1 = Some (two_points (Some wgs84)) ∧
  heap (update_z_values swap_axes updater 1 w_wgs).2 !! 1 = Some (two_points (Some wgs84)) ∧
  objects_kept w_wgs (update_z_values swap_axes updater 1 w_wgs).2 ∧
  ∀ l', (update_z_values swap_axes updater 1 w_wgs).1 = Ok l' →
        heap w_wgs !! l' = None ∧ l' ≠ 1 ∧
        is_Some (heap (update_z_values swap_axes updater 1 w_wgs).2 !! l').
Proof.
  assert (heap w_wgs !! 1 = Some (two_points (Some wgs84))) as H1
    by (vm_compute; reflexivity).
  split; [done|].
  exact (update_z_values_keeps_input swap_axes updater w_wgs 1 _ H1).
Defined.

(** C6 on a whole run of the single-file driver. *)
Lemma exports_write_as_is_and_wgs84_witness :
  process_shapefile swap_axes accept_all updater "in/pts.shp" "out" w_disk
    = (Ok tt, (process_shapefile swap_axes accept_all updater "in/pts.shp" "out" w_disk).2) ∧
  ∃ u updated src,
    heap (process_shapefile swap_axes accept_all updater "in/pts.shp" "out" w_disk).2 !! u
      = Some updated ∧
    crs updated = dem_crs (dem updater) ∧
    crs updated = Some src ∧
    files (process_shapefile swap_axes accept_all updater "in/pts.shp" "out" w_disk).2
      !! shp_out_of "in/pts.shp" "out" =
      Some (VectorFile "ESRI Shapefile" "utf-8" updated) ∧
    files (process_shapefile swap_axes accept_all updater "in/pts.shp" "out" w_disk).2
      !! json_out_of "in/pts.shp" "out" =
      Some (VectorFile "GeoJSON" "utf-8"
              (GDF (Some (EPSG 4326))
                   (map (transform_row (swap_axes src (EPSG 4326))) (rows updated)))).
Proof.
  assert (process_shapefile swap_axes accept_all updater "in/pts.shp" "out" w_disk
          = (Ok tt, (process_shapefile swap_axes accept_all updater "in/pts.shp" "out" w_disk).2))
    as H1 by (vm_compute; reflexivity).
  split; [done|].
  destruct (exports_write_as_is_and_wgs84 swap_axes accept_all updater) as (_ & _ & H).
  exact (H "in/pts.shp" "out" w_disk _ H1).
Defined.

(** C9, amended, on an empty dataset in EPSG:4326. *)
Lemma update_z_values_empty_witness :
  heap w_empty_wgs !! 1 = Some (no_points (Some wgs84)) ∧
  rows (no_points (Some wgs84)) = [] ∧
  (is_Some (crs (no_points (Some wgs84))) ∧ is_Some (dem_crs (dem updater))) ∧
  _sample_elevations updater 1 w_empty_wgs = (Ok [], logged (CallSample 0) w_empty_wgs) ∧
  ∃ l' w' out,
    update_z_values swap_axes updater 1 w_empty_wgs = (Ok l', w') ∧
    heap w' !! l' = Some out ∧
    rows out = [].
Proof.
  assert (heap w_empty_wgs !! 1 = Some (no_points (Some wgs84))) as H1
    by (vm_compute; reflexivity).
  assert (is_Some (crs (no_points (Some wgs84))) ∧ is_Some (dem_crs (dem updater))) as H2
    by (split; eexists; reflexivity).
  destruct (update_z_values_empty swap_axes updater w_empty_wgs 1 _ H1 eq_refl)
    as [Hs Hu].
  split_and!; [done | reflexivity | apply H2.. | done | exact (Hu (or_intror H2))].
Defined.

(** C10 on two points in EPSG:32633. *)
Lemma export_geojson_keeps_caller_dataset_witness :
  heap w_utm !! 1 = Some (two_points (Some utm33)) ∧
  heap (export_geojson swap_axes accept_all 1 "out/pts_Z.geojson" w_utm).2 !! 1
    = Some (two_points (Some utm33)).
Proof.
  assert (heap w_utm !! 1 = Some (two_points (Some utm33))) as H1
    by (vm_compute; reflexivity).
  split; [done|].
  exact (export_geojson_keeps_caller_dataset swap_axes accept_all w_utm 1 _
           "out/pts_Z.geojson" H1).
Defined.

End Witnesses.

(** * Further properties *)

(** ** File names *)

(** ** Strings *)

Lemma list_ascii_of_string_append (a b : string) :
  list_ascii_of_string (a +:+ b) = (list_ascii_of_string a ++ list_ascii_of_string b)%list.
Proof. induction a as [|c a IH]; simpl; [done | by f_equal]. Qed.

Lemma list_ascii_of_string_inj (a b : string) :
  list_ascii_of_string a = list_ascii_of_string b → a = b.
Proof.
  intros H. rewrite <- (string_of_list_ascii_of_string a), H.
  apply string_of_list_ascii_of_string.
Qed.

Lemma starts_with_iff (p l : list ascii) :
  starts_with p l = true ↔ ∃ r, l = (p ++ r)%list.
Proof.
  revert l. induction p as [|c p IH]; intros l; simpl.
  - split; [by exists l | done].
  - destruct l as [|d l]; [split; [done | by intros [r Hr]]|].
    rewrite andb_true_iff, IH. split.
    + intros [Hc [r ->]]. apply Ascii.eqb_eq in Hc as ->. by exists r.
    + intros [r [= -> ->]]. split; [apply Ascii.eqb_refl | by exists r].
Qed.

Lemma str_endswith_iff (s suffix : string) :
  str_endswith s suffix = true ↔ ∃ stem, s = stem +:+ suffix.
Proof.
  unfold str_endswith. rewrite starts_with_iff. split.
  - intros [r Hr]. exists (string_of_list_ascii (rev r)).
    apply list_ascii_of_string_inj.
    rewrite list_ascii_of_string_append, list_ascii_of_string_of_list_ascii.
    apply (f_equal (@rev ascii)) in Hr.
    by rewrite rev_involutive, rev_app_distr, rev_involutive in Hr.
  - intros [stem ->]. exists (rev (list_ascii_of_string stem)).
    by rewrite list_ascii_of_string_append, rev_app_distr.
Qed.

Lemma list_ascii_of_str_lower (s : string) :
  list_ascii_of_string (str_lower s) = map ascii_lower (list_ascii_of_string s).
Proof. induction s as [|c s IH]; simpl; [done | by f_equal]. Qed.

Lemma ascii_lower_dot c : ascii_lower c = "."%char ↔ c = "."%char.
Proof.
  destruct c as [[] [] [] [] [] [] [] []]; vm_compute; split; congruence.
Qed.

Lemma ascii_lower_s c : ascii_lower c = "s"%char ↔ c = "s"%char ∨ c = "S"%char.
Proof.
  destruct c as [[] [] [] [] [] [] [] []]; vm_compute;
    (split; [intros; try congruence; auto | intros [|]; congruence]).
Qed.

Lemma ascii_lower_h c : ascii_lower c = "h"%char ↔ c = "h"%char ∨ c = "H"%char.
Proof.
  destruct c as [[] [] [] [] [] [] [] []]; vm_compute;
    (split; [intros; try congruence; auto | intros [|]; congruence]).
Qed.

Lemma ascii_lower_p c : ascii_lower c = "p"%char ↔ c = "p"%char ∨ c = "P"%char.
Proof.
  destruct c as [[] [] [] [] [] [] [] []]; vm_compute;
    (split; [intros; try congruence; auto | intros [|]; congruence]).
Qed.

(** X1.  The filter of [process_folder] keeps exactly the names that end in
    a dot followed by [s], [h], [p] in either case: [a.shp], [B.SHP] and the
    bare [.shp] pass, [a.shp.bak] and [shp] do not. *)
Theorem shapefile_extension_any_case (f : string) :
  str_endswith (str_lower f) ".shp" = true ↔
  ∃ stem a b c,
    f = stem +:+ String "." (String a (String b (String c EmptyString))) ∧
    (a = "s"%char ∨ a = "S"%char) ∧
    (b = "h"%char ∨ b = "H"%char) ∧
    (c = "p"%char ∨ c = "P"%char).
Proof.
  unfold str_endswith. rewrite list_ascii_of_str_lower, <- map_rev, starts_with_iff.
  split.
  - intros [r0 H].
    destruct (rev (list_ascii_of_string f)) as [|c [|b [|a [|d r]]]] eqn:Hr;
      try discriminate.
    cbn in H. injection H as Hc Hb Ha Hd _.
    apply ascii_lower_p in Hc. apply ascii_lower_h in Hb.
    apply ascii_lower_s in Ha. apply (proj1 (ascii_lower_dot d)) in Hd. subst d.
    exists (string_of_list_ascii (rev r)), a, b, c. split; [|done].
    apply list_ascii_of_string_inj.
    rewrite list_ascii_of_string_append, list_ascii_of_string_of_list_ascii.
    apply (f_equal (@rev ascii)) in Hr. rewrite rev_involutive in Hr.
    rewrite Hr. simpl. by rewrite <- !app_assoc.
  - intros (stem & a & b & c & -> & Ha & Hb & Hc).
    apply ascii_lower_s in Ha. apply ascii_lower_h in Hb. apply ascii_lower_p in Hc.
    exists (map ascii_lower (rev (list_ascii_of_string stem))).
    rewrite list_ascii_of_string_append, rev_app_distr, map_app. simpl.
    by rewrite Ha, Hb, Hc.
Qed.

(** ** The folder driver: what it leaves alone, where it stops *)

Lemma append_assoc (a b c : string) : (a +:+ b) +:+ c = a +:+ (b +:+ c).
Proof.
  induction a as [|x a IH]; [done|].
  change (String x ((a +:+ b) +:+ c) = String x (a +:+ (b +:+ c))). by rewrite IH.
Qed.

Lemma str_endswith_append (a b suffix : string) :
  str_endswith b suffix = true → str_endswith (a +:+ b) suffix = true.
Proof.
  rewrite !str_endswith_iff. intros [stem ->]. exists (a +:+ stem).
  by rewrite append_assoc.
Qed.

Lemma join_endswith (a b suffix : string) :
  str_endswith b suffix = true → str_endswith (os_path.join a b) suffix = true.
Proof.
  intros H. unfold os_path.join.
  destruct (os_path.startswith_sep b); [done|].
  destruct (_ || _); repeat apply str_endswith_append; done.
Qed.

Lemma shp_out_endswith shp_path out_dir :
  str_endswith (shp_out_of shp_path out_dir) "_Z.shp" = true.
Proof.
  apply join_endswith, str_endswith_iff. by eexists.
Qed.

Lemma json_out_endswith shp_path out_dir :
  str_endswith (json_out_of shp_path out_dir) "_Z.geojson" = true.
Proof.
  apply join_endswith, str_endswith_iff. by eexists.
Qed.

Lemma endswith_shp_not_geojson (p : string) :
  str_endswith p "_Z.shp" = true → str_endswith p "_Z.geojson" = false.
Proof.
  unfold str_endswith. cbn [list_ascii_of_string rev app].
  destruct (rev (list_ascii_of_string p)) as [|c r]; [done|].
  cbn [starts_with]. rewrite andb_true_iff, Ascii.eqb_eq. intros [<- _].
  reflexivity.
Qed.

(** ** Files and directories *)

Lemma leaves_files_bind {A B} P (m : M A) (f : A → M B) :
  leaves_files P m → (∀ a, leaves_files P (f a)) → leaves_files P (m ≫= f).
Proof.
  intros Hm Hf w p Hp. rewrite bind_unfold. specialize (Hm w p Hp).
  destruct (m w) as [[a|e] w1]; cbn in *; [|done].
  by rewrite Hf.
Qed.

Lemma leaves_files_weaken {A} (P Q : string → Prop) (m : M A) :
  (∀ p, Q p → P p) → leaves_files P m → leaves_files Q m.
Proof. intros HPQ Hm w p Hp. by apply Hm, HPQ. Qed.

Lemma keeps_disk_leaves_files {A} P (m : M A) : keeps_disk m → leaves_files P m.
Proof. intros Hm w p _. by rewrite (proj1 (Hm w)). Qed.

Lemma keeps_disk_bind {A B} (m : M A) (f : A → M B) :
  keeps_disk m → (∀ a, keeps_disk (f a)) → keeps_disk (m ≫= f).
Proof.
  intros Hm Hf w. rewrite bind_unfold. specialize (Hm w).
  destruct (m w) as [[a|e] w1]; cbn in *; [|done].
  destruct (Hf a w1) as [-> ->]. done.
Qed.

Lemma keeps_disk_ret {A} (a : A) : keeps_disk (mret a : M A).
Proof. by intros w. Qed.

Lemma keeps_disk_raise {A} e : keeps_disk (raise e : M A).
Proof. by intros w. Qed.

Lemma keeps_disk_lift {A} (r : result A) : keeps_disk (lift r).
Proof. by intros w. Qed.

Lemma keeps_disk_emit ev : keeps_disk (emit ev).
Proof. by intros w. Qed.

Lemma keeps_disk_deref l : keeps_disk (deref l).
Proof. intros w. unfold deref. by destruct (heap w !! l). Qed.

Lemma keeps_disk_alloc g : keeps_disk (alloc g).
Proof. by intros w. Qed.

Lemma keeps_disk_store l g : keeps_disk (store l g).
Proof. by intros w. Qed.

Lemma keeps_disk_copy l : keeps_disk (copy l).
Proof.
  apply keeps_disk_bind; [apply keeps_disk_deref|]. intros g. apply keeps_disk_alloc.
Qed.

Lemma keeps_disk_set_geometry l new_geoms : keeps_disk (set_geometry l new_geoms).
Proof.
  apply keeps_disk_bind; [apply keeps_disk_deref|]. intros g.
  case_bool_decide; [apply keeps_disk_store | apply keeps_disk_raise].
Qed.

Lemma keeps_disk_read_file path : keeps_disk (read_file path).
Proof.
  apply keeps_disk_bind; [apply keeps_disk_emit|].
  intros _ w. cbv beta. by destruct (files w !! path).
Qed.

Lemma for_each_app {A} (l1 l2 : list A) (body : A → M unit) w :
  for_each (l1 ++ l2) body w =
  match for_each l1 body w with
  | (Ok _, w1) => for_each l2 body w1
  | (Err e, w1) => (Err e, w1)
  end.
Proof.
  revert w. induction l1 as [|x l1 IH]; intros w; [done|].
  cbn [for_each app]. rewrite !bind_unfold.
  destruct (body x w) as [[[]|e] w1]; [apply IH | done].
Qed.



Lemma filter_none {A} (f : A → bool) (l : list A) :
  Forall (λ x, f x = false) l → List.filter f l = [].
Proof. induction 1 as [|x l Hx _ IH]; [done|]. cbn [List.filter]. by rewrite Hx. Qed.

Section Batch.
Context (ls : string → world → result (list string)).
Context (T : CRS → CRS → Transformer).
Context (wf : string → string → GeoDataFrame → option exn).
Context (self : PointElevationUpdater).

Lemma keeps_disk_to_crs l target : keeps_disk (to_crs T l target).
Proof.
  apply keeps_disk_bind; [apply keeps_disk_emit|]. intros _.
  apply keeps_disk_bind; [apply keeps_disk_deref|]. intros g.
  destruct (crs g); [|apply keeps_disk_raise].
  destruct target; [apply keeps_disk_alloc | apply keeps_disk_raise].
Qed.

Lemma keeps_disk_ensure_same_crs l : keeps_disk (_ensure_same_crs T self l).
Proof.
  apply keeps_disk_bind; [apply keeps_disk_deref|]. intros g.
  case_bool_decide; [|apply keeps_disk_ret].
  apply keeps_disk_bind; [apply keeps_disk_emit|]. intros _.
  apply keeps_disk_to_crs.
Qed.

Lemma keeps_disk_sample_elevations l : keeps_disk (_sample_elevations self l).
Proof.
  apply keeps_disk_bind; [apply keeps_disk_deref|]. intros g.
  apply keeps_disk_bind; [apply keeps_disk_lift|]. intros coords.
  apply keeps_disk_bind; [apply keeps_disk_emit|]. intros _.
  apply keeps_disk_ret.
Qed.

Lemma keeps_disk_update_z_values l : keeps_disk (update_z_values T self l).
Proof.
  apply keeps_disk_bind; [apply keeps_disk_ensure_same_crs|]. intros l1.
  apply keeps_disk_bind; [apply keeps_disk_sample_elevations|]. intros elevations.
  apply keeps_disk_bind; [apply keeps_disk_deref|]. intros g.
  apply keeps_disk_bind; [apply keeps_disk_lift|]. intros new_geoms.
  apply keeps_disk_bind; [apply keeps_disk_copy|]. intros updated.
  apply keeps_disk_bind; [apply keeps_disk_set_geometry|]. intros _.
  apply keeps_disk_ret.
Qed.

Lemma leaves_files_process_shapefile shp_path out_dir :
  leaves_files (λ p, p ≠ shp_out_of shp_path out_dir ∧ p ≠ json_out_of shp_path out_dir)
               (process_shapefile T wf self shp_path out_dir).
Proof.
  unfold process_shapefile.
  apply leaves_files_bind; [apply keeps_disk_leaves_files, keeps_disk_emit|]. intros _.
  apply leaves_files_bind; [apply keeps_disk_leaves_files, keeps_disk_read_file|].
  intros gdf.
  apply leaves_files_bind; [apply keeps_disk_leaves_files, keeps_disk_update_z_values|].
  intros updated. cbv zeta.
  fold (shp_out_of shp_path out_dir) (json_out_of shp_path out_dir).
  apply leaves_files_bind.
  - eapply leaves_files_weaken; [|apply writes_only_export_shp]. by intros p [? _].
  - intros _. eapply leaves_files_weaken; [|apply writes_only_export_geojson].
    by intros p [_ ?].
Qed.



(** X2.  On a folder without any name that passes the filter, an empty
    folder included, [process_folder] returns without error after the one
    log line [Found 0 shapefiles.]: no file is read or written, no object
    is created. *)
Theorem process_folder_without_shapefiles folder out_dir w names :
  ls folder w = Ok names →
  Forall (λ f, str_endswith (str_lower f) ".shp" = false) names →
  process_folder ls T wf self folder out_dir w =
    (Ok tt, logged (LogInfo "Found 0 shapefiles.") w).
Proof.
  intros Hls Hn. unfold process_folder, listdir.
  rewrite bind_unfold, Hls. cbv zeta.
  by rewrite (filter_none _ _ Hn).
Qed.

(** X3.  [process_folder] stops at the first shapefile whose processing
    raises: it raises the same error and ends in the world of that failure,
    so the outputs of the files before it stay and the files after it are
    never touched. *)
Theorem process_folder_stops_at_first_failure folder out_dir w names done f rest w1 e w2 :
  ls folder w = Ok names →
  List.filter (λ f, str_endswith (str_lower f) ".shp") names = (done ++ f :: rest)%list →
  for_each done
    (λ f, process_shapefile T wf self (os_path.join folder f) out_dir)
    (logged (LogInfo ("Found " +:+ pretty (length (done ++ f :: rest)%list)
                        +:+ " shapefiles.")) w)
    = (Ok tt, w1) →
  process_shapefile T wf self (os_path.join folder f) out_dir w1 = (Err e, w2) →
  process_folder ls T wf self folder out_dir w = (Err e, w2).
Proof.
  intros Hls Hf Hdone Hfail. unfold process_folder, listdir.
  rewrite bind_unfold, Hls. cbv zeta. rewrite Hf.
  rewrite bind_unfold. cbn [logging_info emit]. unfold tqdm.
  rewrite for_each_app, Hdone. cbn [for_each].
  by rewrite bind_unfold, Hfail.
Qed.
End Batch.

(** ** The folder driver: what it writes *)

Section Outputs.
Context (ls : string → world → result (list string)).
Context (T : CRS → CRS → Transformer).
Context (wf : string → string → GeoDataFrame → option exn).
Context (self : PointElevationUpdater).

(** What a returning run of the single-file driver left on disk. *)
Lemma process_shapefile_ok_inv shp_path out_dir w w' :
  process_shapefile T wf self shp_path out_dir w = (Ok tt, w') →
  (∃ sf, files w' !! shp_out_of shp_path out_dir = Some sf ∧
         vf_driver sf = "ESRI Shapefile" ∧
         crs (vf_data sf) = dem_crs (dem self)) ∧
  (∃ jf, files w' !! json_out_of shp_path out_dir = Some jf ∧
         vf_driver jf = "GeoJSON" ∧
         crs (vf_data jf) = Some (EPSG 4326)).
Proof.
  intros Hp. unfold process_shapefile in Hp.
  apply bind_ok_inv in Hp as ([] & wa & _ & Hp).
  apply bind_ok_inv in Hp as (l & wb & Hread & Hp).
  apply bind_ok_inv in Hp as (u & w1 & Hupd & Hp).
  cbv zeta in Hp.
  fold (shp_out_of shp_path out_dir) (json_out_of shp_path out_dir) in Hp.
  apply bind_ok_inv in Hp as ([] & w2 & Hshp & Hjson).
  destruct (read_file_ok_inv _ _ _ _ Hread) as [D HD].
  destruct (update_z_values_result_crs _ _ _ _ _ _ _ HD Hupd) as (updated & Hu & Hc).
  destruct (export_shp_ok_inv wf _ _ _ _ _ Hu Hshp) as (Hfs & _ & Hh & _).
  assert (heap w2 !! u = Some updated) as Hu2 by (by rewrite Hh).
  destruct (export_geojson_ok_inv T wf _ _ _ _ _ Hu2 Hjson) as (src & Hsrc & Hfj & _).
  split.
  - exists (VectorFile "ESRI Shapefile" "utf-8" updated). split; [|done].
    pose proof (writes_only_export_geojson T wf u (json_out_of shp_path out_dir) w2
                  (shp_out_of shp_path out_dir) (out_paths_differ _ _)) as Hk.
    rewrite Hjson in Hk. cbn in Hk. by rewrite Hk.
  - eexists. split; [exact Hfj|]. done.
Qed.

(** A later run of the driver keeps or renews the outputs of earlier runs. *)
Lemma process_shapefile_keeps_outputs shp_path out_dir w w' p :
  process_shapefile T wf self shp_path out_dir w = (Ok tt, w') →
  (str_endswith p "_Z.shp" = true → is_shp_output self w p → is_shp_output self w' p) ∧
  (str_endswith p "_Z.geojson" = true → is_json_output w p → is_json_output w' p).
Proof.
  intros Hp. destruct (process_shapefile_ok_inv _ _ _ _ Hp) as [Hs Hj].
  pose proof (leaves_files_process_shapefile T wf self shp_path out_dir w p) as Hk.
  rewrite Hp in Hk. cbn in Hk. split; intros He Hw.
  - destruct (decide (p = shp_out_of shp_path out_dir)) as [->|Hne]; [exact Hs|].
    unfold is_shp_output. rewrite Hk; [exact Hw|]. split; [done|]. intros ->.
    apply endswith_shp_not_geojson in He. by rewrite json_out_endswith in He.
  - destruct (decide (p = json_out_of shp_path out_dir)) as [->|Hne]; [exact Hj|].
    unfold is_json_output. rewrite Hk; [exact Hw|]. split; [|done]. intros ->.
    pose proof (shp_out_endswith shp_path out_dir) as Hs'.
    apply endswith_shp_not_geojson in Hs'. by rewrite Hs' in He.
Qed.

Lemma for_each_keeps_outputs folder out_dir items w w' p :
  for_each items (λ f, process_shapefile T wf self (os_path.join folder f) out_dir) w
    = (Ok tt, w') →
  (str_endswith p "_Z.shp" = true → is_shp_output self w p → is_shp_output self w' p) ∧
  (str_endswith p "_Z.geojson" = true → is_json_output w p → is_json_output w' p).
Proof.
  revert w. induction items as [|f items IH]; intros w.
  - intros [= <-]. done.
  - cbn [for_each]. intros H. apply bind_ok_inv in H as ([] & w1 & H1 & H2).
    destruct (process_shapefile_keeps_outputs _ _ _ _ p H1) as [Hs1 Hj1].
    destruct (IH _ H2) as [Hs2 Hj2]. split; auto.
Qed.

Lemma for_each_outputs folder out_dir items w w' :
  for_each items (λ f, process_shapefile T wf self (os_path.join folder f) out_dir) w
    = (Ok tt, w') →
  ∀ f, f ∈ items →
    is_shp_output self w' (shp_out_of (os_path.join folder f) out_dir) ∧
    is_json_output w' (json_out_of (os_path.join folder f) out_dir).
Proof.
  revert w. induction items as [|x items IH]; intros w H f Hf.
  - by apply elem_of_nil in Hf.
  - cbn [for_each] in H. apply bind_ok_inv in H as ([] & w1 & H1 & H2).
    apply elem_of_cons in Hf as [->|Hf]; [|by eapply IH].
    destruct (process_shapefile_ok_inv _ _ _ _ H1) as [Hs Hj].
    split.
    + eapply for_each_keeps_outputs; [exact H2 | apply shp_out_endswith | exact Hs].
    + eapply for_each_keeps_outputs; [exact H2 | apply json_out_endswith | exact Hj].
Qed.

(** X5.  When [process_folder] returns, every listed name that passes the
    filter has both its outputs on disk: a shapefile in the DEM's CRS and a
    GeoJSON file in EPSG:4326, also when a later input wrote to the same
    output paths. *)
Theorem process_folder_exports_every_shapefile folder out_dir w names w' :
  ls folder w = Ok names →
  process_folder ls T wf self folder out_dir w = (Ok tt, w') →
  ∀ f, f ∈ names → str_endswith (str_lower f) ".shp" = true →
    (∃ sf, files w' !! shp_out_of (os_path.join folder f) out_dir = Some sf ∧
           vf_driver sf = "ESRI Shapefile" ∧
           crs (vf_data sf) = dem_crs (dem self)) ∧
    (∃ jf, files w' !! json_out_of (os_path.join folder f) out_dir = Some jf ∧
           vf_driver jf = "GeoJSON" ∧
           crs (vf_data jf) = Some (EPSG 4326)).
Proof.
  intros Hls Hp f Hf Hshp. unfold process_folder, listdir in Hp.
  rewrite bind_unfold, Hls in Hp. cbv zeta in Hp.
  apply bind_ok_inv in Hp as ([] & w1 & _ & Hp). unfold tqdm in Hp.
  apply (for_each_outputs _ _ _ _ _ Hp).
  apply list_elem_of_In, filter_In. split; [by apply list_elem_of_In | done].
Qed.
End Outputs.

(** ** More on sampling and [update_z_values] *)

Lemma coords_of_not_points geoms :
  forallb is_point geoms = false → coords_of geoms = Err (AttributeError "x").
Proof.
  unfold coords_of. induction geoms as [|g geoms IH]; [done|].
  cbn [forallb mapM]. unfold mbind, result_bind, mret, result_ret in *.
  destruct g as [x y|x y z|k]; cbn; [| |done]; intros H; by rewrite (IH H).
Qed.

(** The layout of the flattened samples. *)
Lemma np_flatten_layout d coords j b x y (f : float → float → float) :
  coords !! j = Some (x, y) →
  (dem_band1 d :: dem_more_bands d) !! b = Some f →
  np_flatten (dem_sample d coords) !! (j * S (length (dem_more_bands d)) + b)
    = Some (f x y).
Proof.
  unfold np_flatten, dem_sample. revert j.
  induction coords as [|c coords IH]; intros j Hj Hb; [done|].
  cbn [map concat]. destruct j as [|j].
  - injection Hj as ->. cbn [fst snd]. rewrite Nat.mul_0_l, Nat.add_0_l.
    rewrite lookup_app_l.
    + change (dem_band1 d x y :: map (λ b0, b0 x y) (dem_more_bands d))
        with (map (λ b0 : float → float → float, b0 x y)
                  (dem_band1 d :: dem_more_bands d)).
      by rewrite list_lookup_fmap, Hb.
    + apply lookup_lt_Some in Hb. cbn in *. by rewrite length_map.
  - rewrite lookup_app_r; cbn [length]; rewrite length_map; [|lia].
    replace (S j * S (length (dem_more_bands d)) + b - S (length (dem_more_bands d)))
      with (j * S (length (dem_more_bands d)) + b) by lia.
    by apply IH.
Qed.

Lemma zip_with_row_idemp (rs : list row) (gs : list geometry) :
  zip_with (λ r ng, Row (fields r) ng)
           (zip_with (λ r ng, Row (fields r) ng) rs gs) gs
  = zip_with (λ r ng, Row (fields r) ng) rs gs.
Proof.
  revert gs. induction rs as [|r rs IH]; intros [|g gs]; cbn; try done.
  by rewrite IH.
Qed.

Lemma rewrite_geometry_keeps_xy geom z geom' :
  rewrite_geometry geom z = Ok geom' →
  geom_x geom' = geom_x geom ∧ geom_y geom' = geom_y geom ∧
  rewrite_geometry geom' z = Ok geom'.
Proof.
  unfold rewrite_geometry. destruct (np_isfinite z) eqn:Hz.
  - destruct geom as [x y|x y z0|k]; cbn; try discriminate; by intros [= <-].
  - by intros [= <-].
Qed.

Section UpdateExtras.
Context (T : CRS → CRS → Transformer).
Context (self : PointElevationUpdater).

(** X6.  On a dataset in the DEM's CRS that holds a geometry without [x]
    (a missing geometry, a line, a polygon), the sampler and
    [update_z_values] raise [AttributeError] and leave the world as it
    was: the DEM is not sampled and no copy is made. *)
Theorem update_z_values_rejects_non_points w l D :
  heap w !! l = Some D →
  crs D = dem_crs (dem self) →
  is_point_dataset D = false →
  _sample_elevations self l w = (Err (AttributeError "x"), w) ∧
  update_z_values T self l w = (Err (AttributeError "x"), w).
Proof.
  intros Hl Hc Hp. apply coords_of_not_points in Hp. split.
  - by apply (sample_elevations_err self w l D).
  - apply (update_z_values_sample_err T self w l l w D); [|done..].
    by apply (ensure_same_crs_equal T self w l D).
Qed.

(** X7.  With a one-band raster and a point dataset in the DEM's CRS,
    [update_z_values] returns a dataset with the same CRS and as many
    records, and record [i] keeps its fields and gets the band's value at
    its own coordinates as z when that value is finite, and keeps its
    geometry otherwise. *)
Theorem update_z_values_one_band w l D :
  heap w !! l = Some D →
  crs D = dem_crs (dem self) →
  is_point_dataset D = true →
  dem_more_bands (dem self) = [] →
  ∃ l' w' out,
    update_z_values T self l w = (Ok l', w') ∧
    heap w' !! l' = Some out ∧
    crs out = crs D ∧
    length (rows out) = length (rows D) ∧
    ∀ i r, rows D !! i = Some r →
      ∃ x y,
        geom_x (geom r) = Ok x ∧ geom_y (geom r) = Ok y ∧
        rows out !! i =
          Some (Row (fields r)
                    (if np_isfinite (dem_band1 (dem self) x y)
                     then Point3D x y (dem_band1 (dem self) x y)
                     else geom r)).
Proof.
  intros Hl Hc Hp Hb.
  pose proof (ensure_same_crs_equal T self w l D Hl Hc) as Hr.
  apply is_point_dataset_Forall in Hp.
  destruct (coords_of_total _ Hp) as [coords Hco].
  destruct (rewrite_geometries_total _
              (np_flatten (dem_sample (dem self) coords)) Hp) as [new_geoms Hn].
  destruct (rewrite_geometries_lookup _ _ Hn) as [Hlen Hnth].
  destruct (coords_of_points _ _ Hco) as [_ Hlc].
  rewrite length_zip_sample in Hlen by done.
  unfold geometry_column in Hlen at 1. rewrite length_map in Hlen.
  eexists _, _, _.
  split; [exact (update_z_values_ok T self w l l w D coords new_geoms Hr Hl Hco Hn)|].
  split; [cbn; by rewrite lookup_insert_eq|].
  split; [done|]. cbn [rows].
  split; [rewrite length_zip_with; lia|].
  intros i r Hi.
  assert (geometry_column D !! i = Some (geom r)) as Hgi.
  { unfold geometry_column. by rewrite list_lookup_fmap, Hi. }
  apply coords_of_Forall2 in Hco.
  destruct (Forall2_lookup_l _ _ _ _ _ Hco Hgi) as ([x y] & Hci & Hx & Hy).
  cbn in Hx, Hy. exists x, y. split; [done|]. split; [done|].
  pose proof (dem_sample_one_band (dem self) coords i x y Hb Hci) as Hz.
  destruct (Hnth i (geom r) (dem_band1 (dem self) x y)) as (geom' & Hi' & Hrw).
  { apply lookup_zip_with_Some. by eexists _, _. }
  rewrite lookup_zip_with, Hi, Hi'. cbn. do 2 f_equal.
  unfold rewrite_geometry in Hrw.
  destruct (np_isfinite (dem_band1 (dem self) x y)).
  - rewrite Hx, Hy in Hrw. by injection Hrw as <-.
  - by injection Hrw as <-.
Qed.

(** X8.  With a raster of [k] bands the sampler returns [k] values per
    record, band after band: position [j * k + b] holds band [b] at the
    coordinates of record [j].  (The loop of [update_z_values] pairs record
    [i] with position [i], which is its own elevation only when [k = 1].) *)
Theorem sample_elevations_interleaves_bands w l g coords :
  heap w !! l = Some g →
  coords_of (geometry_column g) = Ok coords →
  ∃ elevations,
    _sample_elevations self l w = (Ok elevations, logged (CallSample (length coords)) w) ∧
    length elevations = length (rows g) * S (length (dem_more_bands (dem self))) ∧
    ∀ j b x y (f : float → float → float),
      coords !! j = Some (x, y) →
      (dem_band1 (dem self) :: dem_more_bands (dem self)) !! b = Some f →
      elevations !! (j * S (length (dem_more_bands (dem self))) + b) = Some (f x y).
Proof.
  intros Hl Hco. eexists. split; [by apply (sample_elevations_ok self w l g)|].
  split.
  - rewrite length_dem_sample. destruct (coords_of_points _ _ Hco) as [_ ->].
    unfold geometry_column. by rewrite length_map.
  - intros j b x y f. apply np_flatten_layout.
Qed.

(** X9.  Whatever its outcome, [update_z_values] leaves every file and
    directory as it was; the dataset it returns is in the DEM's CRS. *)
Theorem update_z_values_leaves_disk_returns_dem_crs w l :
  files (update_z_values T self l w).2 = files w ∧
  dirs (update_z_values T self l w).2 = dirs w ∧
  ∀ D l', heap w !! l = Some D →
    (update_z_values T self l w).1 = Ok l' →
    ∃ out, heap (update_z_values T self l w).2 !! l' = Some out ∧
           crs out = dem_crs (dem self).
Proof.
  destruct (keeps_disk_update_z_values T self l w) as [Hf Hd].
  split; [done|]. split; [done|]. intros D l' Hl Hu.
  destruct (update_z_values T self l w) as [r w'] eqn:Hrun. cbn in Hu. subst r.
  exact (update_z_values_result_crs T self w l D l' w' Hl Hrun).
Qed.

(** X10.  [update_z_values] is idempotent: run again on the dataset it
    returned, it returns a dataset with the same content. *)
Theorem update_z_values_idempotent w l D l' w' :
  heap w !! l = Some D →
  update_z_values T self l w = (Ok l', w') →
  ∃ l'' w'',
    update_z_values T self l' w' = (Ok l'', w'') ∧
    heap w'' !! l'' = heap w' !! l'.
Proof.
  intros Hl Hu.
  destruct (update_z_values_inv _ _ _ _ _ _ _ Hl Hu)
    as (l1 & w1 & g & coords & new_geoms & Hr & Hg & Hco & Hn & -> & ->).
  destruct (ensure_same_crs_returns _ _ _ _ _ _ _ Hl Hr) as (g' & Hg' & Hc & _).
  assert (g' = g) as -> by congruence.
  destruct (rewrite_geometries_lookup _ _ Hn) as [Hlen Hnth].
  destruct (coords_of_points _ _ Hco) as [_ Hlc].
  rewrite length_zip_sample in Hlen by done.
  pose proof Hlen as Hlen'. unfold geometry_column in Hlen'. rewrite length_map in Hlen'.
  set (out := GDF (crs g) (zip_with (λ r ng, Row (fields r) ng) (rows g) new_geoms)).
  set (l' := fresh (dom (heap w1))).
  set (w' := with_heap (<[l' := out]> (heap w1)) (logged (CallSample (length coords)) w1)).
  assert (heap w' !! l' = Some out) as Hout by (cbn; by rewrite lookup_insert_eq).
  assert (geometry_column out = new_geoms) as Hgc.
  { unfold geometry_column, out; cbn [rows]. by apply geom_zip_with. }
  pose proof (ensure_same_crs_equal T self w' l' out Hout Hc) as Hr2.
  unfold rewrite_geometries in Hn. apply mapM_result_Forall2 in Hn.
  assert (coords_of (geometry_column out) = Ok coords) as Hco2.
  { rewrite Hgc. apply coords_of_Forall2. apply coords_of_Forall2 in Hco.
    apply Forall2_same_length_lookup. split; [congruence|].
    intros i geom' c Hi Hc'.
    destruct (lookup_lt_is_Some_2 (geometry_column g) i) as [geom Hgi].
    { rewrite <- Hlen. by eapply lookup_lt_Some. }
    destruct (lookup_lt_is_Some_2 (np_flatten (dem_sample (dem self) coords)) i)
      as [z Hz].
    { rewrite length_dem_sample. apply lookup_lt_Some in Hc'. nia. }
    assert (zip (geometry_column g) (np_flatten (dem_sample (dem self) coords)) !! i
            = Some (geom, z)) as Hzi.
    { apply lookup_zip_with_Some. by exists geom, z. }
    pose proof (Forall2_lookup_lr _ _ _ _ _ _ Hn Hzi Hi) as Hrw. cbn in Hrw.
    destruct (rewrite_geometry_keeps_xy _ _ _ Hrw) as (-> & -> & _).
    exact (Forall2_lookup_lr _ _ _ _ _ _ Hco Hgi Hc'). }
  assert (rewrite_geometries
            (zip (geometry_column out) (np_flatten (dem_sample (dem self) coords)))
          = Ok new_geoms) as Hn2.
  { rewrite Hgc. unfold rewrite_geometries. apply mapM_result_Forall2.
    apply Forall2_same_length_lookup. split.
    - rewrite length_zip_with, length_dem_sample. rewrite Hlen, <- Hlc. nia.
    - intros i [geom' z] geom'' Hzi Hi. cbn.
      apply lookup_zip_with_Some in Hzi as (? & ? & [= <- <-] & Hi' & Hz).
      assert (geom'' = geom') as -> by congruence.
      destruct (lookup_lt_is_Some_2 (geometry_column g) i) as [geom Hgi].
      { rewrite <- Hlen. by eapply lookup_lt_Some. }
      assert (zip (geometry_column g) (np_flatten (dem_sample (dem self) coords)) !! i
              = Some (geom, z)) as Hzi.
      { apply lookup_zip_with_Some. by exists geom, z. }
      pose proof (Forall2_lookup_lr _ _ _ _ _ _ Hn Hzi Hi) as Hrw. cbn in Hrw.
      by destruct (rewrite_geometry_keeps_xy _ _ _ Hrw) as (_ & _ & ?). }
  eexists _, _. split.
  - exact (update_z_values_ok T self w' l' l' w' out coords new_geoms Hr2 Hout Hco2 Hn2).
  - cbn [heap with_heap logged]. rewrite !lookup_insert_eq. f_equal.
    unfold out; cbn [crs rows]. by rewrite zip_with_row_idemp.
Qed.
End UpdateExtras.

(** ** More on paths and exports *)

(** ** Paths *)

Lemma rsplit_sep_sep_free r acc :
  sep_free r → os_path.rsplit_sep r acc = ([], (rev r ++ acc)%list).
Proof.
  revert acc. induction r as [|c r IH]; intros acc Hr; [done|].
  inversion Hr as [|?? Hc Hr']; subst. cbn [os_path.rsplit_sep]. rewrite Hc.
  rewrite IH by done. cbn [rev]. by rewrite <- app_assoc.
Qed.

Lemma rsplit_sep_at_sep r h acc :
  sep_free r →
  os_path.rsplit_sep (r ++ os_path.sep :: h) acc
  = (os_path.sep :: h, (rev r ++ acc)%list).
Proof.
  revert acc. induction r as [|c r IH]; intros acc Hr; [done|].
  inversion Hr as [|?? Hc Hr']; subst. cbn [os_path.rsplit_sep app]. rewrite Hc.
  rewrite IH by done. cbn [rev]. by rewrite <- app_assoc.
Qed.

Lemma rsplit_sep_tail_sep_free r acc :
  sep_free acc → sep_free (os_path.rsplit_sep r acc).2.
Proof.
  revert acc. induction r as [|c r IH]; intros acc Hacc; [done|].
  cbn [os_path.rsplit_sep]. destruct (os_path.is_sep c) eqn:Hc; [done|].
  apply IH. by constructor.
Qed.

Lemma rsplit_dot_root_sep_free r ext rr e :
  os_path.rsplit_dot r ext = Some (rr, e) → sep_free r → sep_free rr.
Proof.
  revert ext. induction r as [|c r IH]; intros ext; [done|].
  cbn [os_path.rsplit_dot]. intros H Hr. inversion Hr as [|?? Hc Hr']; subst.
  destruct (os_path.is_extsep c); [by injection H as <- _ | by eapply IH].
Qed.

Lemma sep_free_rev l : sep_free l → sep_free (rev l).
Proof. unfold sep_free. rewrite !Forall_forall. intros H c Hc. apply H.
  apply list_elem_of_In. apply list_elem_of_In in Hc. by apply in_rev. Qed.

Lemma basename_sep_free p : sep_free (list_ascii_of_string (os_path.basename p)).
Proof.
  unfold os_path.basename. rewrite list_ascii_of_string_of_list_ascii.
  apply rsplit_sep_tail_sep_free. constructor.
Qed.

Lemma splitext_root_sep_free n :
  sep_free (list_ascii_of_string n) →
  sep_free (list_ascii_of_string (os_path.splitext n).1).
Proof.
  intros Hn. unfold os_path.splitext.
  rewrite (rsplit_sep_sep_free (rev (list_ascii_of_string n)) [])
    by (by apply sep_free_rev).
  rewrite rev_involutive, app_nil_r.
  destruct (os_path.rsplit_dot (rev (list_ascii_of_string n)) []) as [[rr e]|] eqn:Hd;
    [|done].
  destruct (forallb os_path.is_extsep rr); [done|]. cbn [fst].
  rewrite list_ascii_of_string_of_list_ascii. cbn [rev app].
  apply sep_free_rev. eapply rsplit_dot_root_sep_free; [exact Hd|].
  by apply sep_free_rev.
Qed.

(** The name of an output: the root of the input's file name and a suffix
    without separator. *)
Lemma output_name_sep_free shp_path (suffix : string) :
  sep_free (list_ascii_of_string suffix) →
  sep_free (list_ascii_of_string
              ((os_path.splitext (os_path.basename shp_path)).1 +:+ suffix)).
Proof.
  intros Hs. rewrite list_ascii_of_string_append. apply Forall_app. split; [|done].
  apply splitext_root_sep_free, basename_sep_free.
Qed.

Lemma startswith_sep_sep_free b :
  sep_free (list_ascii_of_string b) → os_path.startswith_sep b = false.
Proof. destruct b as [|c b]; [done|]. intros H. by inversion H. Qed.

Lemma dirname_sep_free b :
  sep_free (list_ascii_of_string b) → os_path.dirname b = EmptyString.
Proof.
  intros Hb. unfold os_path.dirname.
  by rewrite (rsplit_sep_sep_free _ [] (sep_free_rev _ Hb)).
Qed.

Lemma join_empty b :
  sep_free (list_ascii_of_string b) → os_path.join EmptyString b = b.
Proof. intros Hb. unfold os_path.join. by rewrite startswith_sep_sep_free. Qed.

Lemma join_dir d b :
  d ≠ EmptyString → os_path.endswith_sep d = false →
  sep_free (list_ascii_of_string b) →
  os_path.join d b = d +:+ "/" +:+ b ∧
  os_path.dirname (os_path.join d b) = d ∧
  os_path.basename (os_path.join d b) = b.
Proof.
  intros Hd He Hb. unfold os_path.join.
  rewrite startswith_sep_sep_free by done.
  apply String.eqb_neq in Hd. rewrite Hd, He. cbn [orb]. split; [done|].
  unfold os_path.dirname, os_path.basename.
  rewrite !list_ascii_of_string_append, rev_app_distr.
  change (list_ascii_of_string "/") with [os_path.sep]. cbn [rev app].
  rewrite <- app_assoc. cbn [app].
  rewrite (rsplit_sep_at_sep _ _ [] (sep_free_rev _ Hb)). cbn [fst snd].
  rewrite rev_involutive, app_nil_r, string_of_list_ascii_of_string.
  split; [|done].
  unfold os_path.endswith_sep in He. cbn [os_path.drop_seps].
  replace (os_path.is_sep os_path.sep) with true by done.
  destruct (rev (list_ascii_of_string d)) as [|c r] eqn:Hr.
  - apply (f_equal (@rev ascii)) in Hr. rewrite rev_involutive in Hr.
    apply String.eqb_neq in Hd. destruct d; [done | discriminate].
  - cbn [os_path.drop_seps]. rewrite He.
    change (rev r ++ [c])%list with (rev (c :: r)).
    rewrite <- Hr, rev_involutive. apply string_of_list_ascii_of_string.
Qed.

Lemma suffix_shp_sep_free : sep_free (list_ascii_of_string "_Z.shp").
Proof. repeat constructor. Qed.

Lemma suffix_geojson_sep_free : sep_free (list_ascii_of_string "_Z.geojson").
Proof. repeat constructor. Qed.

(** X14.  For an output directory that is not empty and does not end in a
    separator, both output paths of [process_shapefile] lie directly in it:
    their directory part is [out_dir], and their file name is the root of
    the input's file name followed by [_Z.shp] or [_Z.geojson]. *)
Theorem outputs_land_in_out_dir shp_path out_dir :
  out_dir ≠ EmptyString →
  os_path.endswith_sep out_dir = false →
  os_path.dirname (shp_out_of shp_path out_dir) = out_dir ∧
  os_path.basename (shp_out_of shp_path out_dir)
    = (os_path.splitext (os_path.basename shp_path)).1 +:+ "_Z.shp" ∧
  os_path.dirname (json_out_of shp_path out_dir) = out_dir ∧
  os_path.basename (json_out_of shp_path out_dir)
    = (os_path.splitext (os_path.basename shp_path)).1 +:+ "_Z.geojson".
Proof.
  intros Hd He. unfold shp_out_of, json_out_of.
  destruct (join_dir out_dir _ Hd He
              (output_name_sep_free shp_path "_Z.shp" suffix_shp_sep_free))
    as (_ & ? & ?).
  destruct (join_dir out_dir _ Hd He
              (output_name_sep_free shp_path "_Z.geojson" suffix_geojson_sep_free))
    as (_ & ? & ?).
  done.
Qed.

Section ExportExtras.
Context (T : CRS → CRS → Transformer).
Context (wf : string → string → GeoDataFrame → option exn).
Context (self : PointElevationUpdater).


(** X12.  When the directory part of the output path is a regular file,
    both exports raise [FileExistsError] from [os.makedirs], before any
    dataset is read or written. *)
Theorem exports_blocked_by_regular_file w l output_path :
  os_path.dirname output_path ≠ EmptyString →
  is_Some (files w !! os_path.dirname output_path) →
  export_shp wf l output_path w =
    (Err (FileExistsError (os_path.dirname output_path)),
     logged (CallMakedirs (os_path.dirname output_path)) w) ∧
  export_geojson T wf l output_path w =
    (Err (FileExistsError (os_path.dirname output_path)),
     logged (CallMakedirs (os_path.dirname output_path)) w).
Proof.
  intros Hd Hf. unfold export_shp, export_geojson, os_makedirs.
  rewrite !bind_unfold. cbn [emit]. cbv beta.
  apply String.eqb_neq in Hd. rewrite Hd.
  cbn [files logged]. by rewrite bool_decide_eq_true_2.
Qed.

(** X13.  Exporting twice is exporting once, as far as the disk goes: after
    an export that returned, the same export returns again and leaves files
    and directories as the first one left them.  (The output path is not
    made of separators only.) *)
Theorem exports_idempotent_on_disk w l g output_path :
  heap w !! l = Some g →
  os_path.dirname output_path ≠ output_path →
  (∀ w1, export_shp wf l output_path w = (Ok tt, w1) →
     ∃ w2, export_shp wf l output_path w1 = (Ok tt, w2) ∧
           files w2 = files w1 ∧ dirs w2 = dirs w1 ∧ heap w2 = heap w1) ∧
  (∀ w1, export_geojson T wf l output_path w = (Ok tt, w1) →
     ∃ w2, export_geojson T wf l output_path w1 = (Ok tt, w2) ∧
           files w2 = files w1 ∧ dirs w2 = dirs w1).
Proof.
  intros Hl Hne. split; intros w1.
  - rewrite (export_shp_run wf w l g output_path Hl). cbv zeta.
    destruct (String.eqb _ _) eqn:Hd; [discriminate|].
    case_bool_decide as Hf; [discriminate|].
    destruct (wf _ _ _) eqn:Hw; [discriminate|]. intros [= <-].
    rewrite (export_shp_run wf _ l g output_path) by done. cbv zeta.
    rewrite Hd. cbn [files logged with_files with_dirs dirs heap].
    rewrite bool_decide_eq_false_2.
    2:{ rewrite lookup_insert_ne by done. done. }
    rewrite Hw. eexists. split; [done|]. cbn.
    split_and!; [by rewrite insert_insert_eq | | done].
    by rewrite (assoc_L (∪)), (idemp_L (∪)).
  - rewrite (export_geojson_run T wf w l g output_path Hl). cbv zeta.
    destruct (String.eqb _ _) eqn:Hd; [discriminate|].
    case_bool_decide as Hf; [discriminate|].
    destruct (crs g) as [src|] eqn:Hc; [|discriminate].
    destruct (wf _ _ _) eqn:Hw; [discriminate|]. intros [= <-].
    rewrite (export_geojson_run T wf _ l g output_path).
    2:{ cbn. rewrite lookup_insert_ne; [done|]. intros Heq.
        pose proof (fresh_unused w) as Hfr. rewrite Heq in Hfr. congruence. }
    cbv zeta. rewrite Hd. cbn [files logged with_files with_dirs with_heap dirs heap].
    rewrite bool_decide_eq_false_2.
    2:{ rewrite lookup_insert_ne by done. done. }
    rewrite Hc, Hw. eexists. split; [done|]. cbn.
    split; [by rewrite insert_insert_eq|].
    by rewrite (assoc_L (∪)), (idemp_L (∪)).
Qed.

Lemma export_shp_empty_dirname w l output_path :
  os_path.dirname output_path = EmptyString →
  export_shp wf l output_path w =
    (Err (FileNotFoundError EmptyString), logged (CallMakedirs EmptyString) w).
Proof.
  intros Hd. unfold export_shp, os_makedirs. rewrite !bind_unfold, Hd. by cbn.
Qed.

(** X15.  With an empty [out_dir], [process_shapefile] reads and updates the
    dataset and then raises [FileNotFoundError] in the shapefile export: the
    output path has no directory part.  No file is written. *)
Theorem process_shapefile_empty_out_dir shp_path w l wb u w1 :
  read_file shp_path (logged (LogInfo ("Processing: " +:+ shp_path)) w) = (Ok l, wb) →
  update_z_values T self l wb = (Ok u, w1) →
  process_shapefile T wf self shp_path EmptyString w =
    (Err (FileNotFoundError EmptyString), logged (CallMakedirs EmptyString) w1) ∧
  files (logged (CallMakedirs EmptyString) w1) = files w.
Proof.
  intros Hread Hupd. split.
  - unfold process_shapefile.
    rewrite (bind_ok _ _ w tt (logged (LogInfo ("Processing: " +:+ shp_path)) w))
      by done.
    rewrite (bind_ok _ _ _ _ _ Hread), (bind_ok _ _ _ _ _ Hupd). cbv zeta.
    rewrite bind_unfold, export_shp_empty_dirname; [done|].
    rewrite join_empty; apply dirname_sep_free || idtac;
      apply output_name_sep_free, suffix_shp_sep_free.
  - cbn [files logged].
    destruct (keeps_disk_update_z_values T self l wb) as [Hf _].
    rewrite Hupd in Hf. cbn in Hf. rewrite Hf.
    destruct (keeps_disk_read_file shp_path
                (logged (LogInfo ("Processing: " +:+ shp_path)) w)) as [Hf' _].
    rewrite Hread in Hf'. by cbn in Hf'.
Qed.
End ExportExtras.

(** ** More concrete runs *)

Section BatchRuns.
Import Sample BatchSample.
Local Open Scope positive_scope.

(** X2 on a folder that holds a text file only. *)
Lemma process_folder_without_shapefiles_witness :
  ls "empty" two_shapefiles = Ok ["notes.txt"] ∧
  Forall (λ f, str_endswith (str_lower f) ".shp" = false) ["notes.txt"] ∧
  process_folder ls swap_axes accept_all updater "empty" "out" two_shapefiles =
    (Ok tt, logged (LogInfo "Found 0 shapefiles.") two_shapefiles).
Proof.
  assert (ls "empty" two_shapefiles = Ok ["notes.txt"]) as H1 by (vm_compute; reflexivity).
  assert (Forall (λ f, str_endswith (str_lower f) ".shp" = false) ["notes.txt"]) as H2
    by (repeat constructor).
  split_and!; [done..|].
  exact (process_folder_without_shapefiles ls swap_axes accept_all updater
           "empty" "out" two_shapefiles _ H1 H2).
Defined.

(** X3 on a folder whose second shapefile has no CRS: the third one is never
    reached. *)
Lemma process_folder_stops_at_first_failure_witness :
  ls "mixed" second_is_naive = Ok ["a.shp"; "b.shp"; "c.shp"] ∧
  process_folder ls swap_axes accept_all updater "mixed" "out" second_is_naive =
    (Err naive_error, w_second_failed) ∧
  files w_second_failed !! "out/c_Z.shp" = None.
Proof.
  assert (ls "mixed" second_is_naive = Ok ["a.shp"; "b.shp"; "c.shp"]) as H1
    by (vm_compute; reflexivity).
  split; [done|]. split; [|vm_compute; reflexivity].
  apply (process_folder_stops_at_first_failure ls swap_axes accept_all updater
           "mixed" "out" second_is_naive _ ["a.shp"] "b.shp" ["c.shp"]
           w_first_done naive_error w_second_failed H1);
    vm_compute; reflexivity.
Defined.

(** X5 on a folder with [a.shp] and [B.SHP]. *)
Lemma process_folder_exports_every_shapefile_witness :
  (∃ sf, files (process_folder ls swap_axes accept_all updater "in" "out" two_shapefiles).2
           !! shp_out_of (os_path.join "in" "B.SHP") "out" = Some sf ∧
         vf_driver sf = "ESRI Shapefile" ∧
         crs (vf_data sf) = dem_crs (dem updater)) ∧
  (∃ jf, files (process_folder ls swap_axes accept_all updater "in" "out" two_shapefiles).2
           !! json_out_of (os_path.join "in" "B.SHP") "out" = Some jf ∧
         vf_driver jf = "GeoJSON" ∧
         crs (vf_data jf) = Some (EPSG 4326)).
Proof.
  assert (ls "in" two_shapefiles = Ok ["a.shp"; "notes.txt"; "B.SHP"; "sub"]) as H1
    by (vm_compute; reflexivity).
  assert (process_folder ls swap_axes accept_all updater "in" "out" two_shapefiles
          = (Ok tt, (process_folder ls swap_axes accept_all updater "in" "out"
                       two_shapefiles).2)) as H2 by (vm_compute; reflexivity).
  apply (process_folder_exports_every_shapefile ls swap_axes accept_all updater
           "in" "out" two_shapefiles _ _ H1 H2 "B.SHP").
  - rewrite !elem_of_cons. auto.
  - vm_compute; reflexivity.
Defined.

(** X6 on a dataset with a line among its points. *)
Lemma update_z_values_rejects_non_points_witness :
  _sample_elevations updater 1 (holding with_a_line)
    = (Err (AttributeError "x"), holding with_a_line) ∧
  update_z_values swap_axes updater 1 (holding with_a_line)
    = (Err (AttributeError "x"), holding with_a_line).
Proof.
  apply (update_z_values_rejects_non_points swap_axes updater (holding with_a_line) 1
           with_a_line); vm_compute; reflexivity.
Defined.

(** X7 on two points in the DEM's CRS. *)
Lemma update_z_values_one_band_witness :
  ∃ l' w' out,
    update_z_values swap_axes updater 1 w_utm = (Ok l', w') ∧
    heap w' !! l' = Some out ∧
    crs out = crs (two_points (Some utm33)) ∧
    length (rows out) = length (rows (two_points (Some utm33))) ∧
    ∀ i r, rows (two_points (Some utm33)) !! i = Some r →
      ∃ x y,
        geom_x (geom r) = Ok x ∧ geom_y (geom r) = Ok y ∧
        rows out !! i =
          Some (Row (fields r)
                    (if np_isfinite (dem_band1 (dem updater) x y)
                     then Point3D x y (dem_band1 (dem updater) x y)
                     else geom r)).
Proof.
  apply (update_z_values_one_band swap_axes updater w_utm 1 (two_points (Some utm33)));
    vm_compute; reflexivity.
Defined.

(** X8 on a raster with two bands: the second sample belongs to the first
    point. *)
Lemma sample_elevations_interleaves_bands_witness :
  ∃ elevations,
    _sample_elevations updater_two_bands 1 w_utm
      = (Ok elevations, logged (CallSample 2) w_utm) ∧
    elevations !! 1%nat = Some (f64 7).
Proof.
  destruct (sample_elevations_interleaves_bands updater_two_bands w_utm 1
              (two_points (Some utm33)) [(f64 3, f64 7); (f64 1000, f64 1000)])
    as (elevations & Hrun & _ & Hlay); [vm_compute; reflexivity..|].
  exists elevations. split; [exact Hrun|].
  exact (Hlay 0%nat 1%nat (f64 3) (f64 7) (λ _ _, f64 7) eq_refl eq_refl).
Defined.

(** X9 on two points in EPSG:4326. *)
Lemma update_z_values_leaves_disk_returns_dem_crs_witness :
  ∃ out, heap (update_z_values swap_axes updater 1 w_wgs).2 !! 3 = Some out ∧
         crs out = dem_crs (dem updater).
Proof.
  destruct (update_z_values_leaves_disk_returns_dem_crs swap_axes updater w_wgs 1)
    as (_ & _ & H).
  apply (H (two_points (Some wgs84))); vm_compute; reflexivity.
Defined.

(** X10 on two points in the DEM's CRS. *)
Lemma update_z_values_idempotent_witness :
  ∃ l'' w'',
    update_z_values swap_axes updater 2 (update_z_values swap_axes updater 1 w_utm).2
      = (Ok l'', w'') ∧
    heap w'' !! l'' = heap (update_z_values swap_axes updater 1 w_utm).2 !! 2.
Proof.
  apply (update_z_values_idempotent swap_axes updater w_utm 1 (two_points (Some utm33)));
    vm_compute; reflexivity.
Defined.


(** X12 with a regular file where the output directory should be. *)
Lemma exports_blocked_by_regular_file_witness :
  export_shp accept_all 1 "out/pts_Z.shp" out_is_a_file =
    (Err (FileExistsError (os_path.dirname "out/pts_Z.shp")),
     logged (CallMakedirs (os_path.dirname "out/pts_Z.shp")) out_is_a_file) ∧
  export_geojson swap_axes accept_all 1 "out/pts_Z.shp" out_is_a_file =
    (Err (FileExistsError (os_path.dirname "out/pts_Z.shp")),
     logged (CallMakedirs (os_path.dirname "out/pts_Z.shp")) out_is_a_file).
Proof.
  apply (exports_blocked_by_regular_file swap_axes accept_all out_is_a_file 1
           "out/pts_Z.shp").
  - vm_compute; discriminate.
  - vm_compute. by eexists.
Defined.

(** X13 on two points in the DEM's CRS. *)
Lemma exports_idempotent_on_disk_witness :
  ∃ w2, export_shp accept_all 1 "out/pts_Z.shp" w_exported_shp = (Ok tt, w2) ∧
        files w2 = files w_exported_shp ∧ dirs w2 = dirs w_exported_shp ∧
        heap w2 = heap w_exported_shp.
Proof.
  destruct (exports_idempotent_on_disk swap_axes accept_all w_utm 1
              (two_points (Some utm33)) "out/pts_Z.shp") as [H _];
    [vm_compute; reflexivity | vm_compute; discriminate |].
  apply H. vm_compute; reflexivity.
Defined.

(** X14 on [in/pts.shp] and [out]. *)
Lemma outputs_land_in_out_dir_witness :
  os_path.dirname (shp_out_of "in/pts.shp" "out") = "out" ∧
  os_path.basename (shp_out_of "in/pts.shp" "out")
    = (os_path.splitext (os_path.basename "in/pts.shp")).1 +:+ "_Z.shp" ∧
  os_path.dirname (json_out_of "in/pts.shp" "out") = "out" ∧
  os_path.basename (json_out_of "in/pts.shp" "out")
    = (os_path.splitext (os_path.basename "in/pts.shp")).1 +:+ "_Z.geojson".
Proof.
  apply (outputs_land_in_out_dir "in/pts.shp" "out"); [discriminate | reflexivity].
Defined.

(** X15 on a shapefile that is read and updated without error. *)
Lemma process_shapefile_empty_out_dir_witness :
  process_shapefile swap_axes accept_all updater "in/pts.shp" EmptyString w_disk =
    (Err (FileNotFoundError EmptyString), logged (CallMakedirs EmptyString) w_disk_updated) ∧
  files (logged (CallMakedirs EmptyString) w_disk_updated) = files w_disk.
Proof.
  apply (process_shapefile_empty_out_dir swap_axes accept_all updater "in/pts.shp"
           w_disk 1 w_disk_read 3 w_disk_updated); vm_compute; reflexivity.
Defined.

End BatchRuns.
